(** * Verification of tracecat/integrations/_registry.py

    A shallow embedding of the integration [Registry]: the registration
    decorator, the secret-scoped [wrapper] around every registered
    integration, the environment injection helpers and the read-only
    queries.

    Process-global mutable state (the singleton's two dicts and
    [os.environ]) is threaded explicitly through an exception monad that also
    records what the code did (log lines, secret fetches, calls of the
    integration body). *)

From Stdlib Require Import Ascii.
From stdpp Require Import base strings gmap list.

Open Scope string_scope.
Open Scope list_scope.

(** ** Python values, exceptions and results *)

(** tracecat.auth.Role, as far as the registry uses it: it is built with
    [Role(type="service")] and read through [role.user_id]. *)
Record Role := {
  type : string;
  user_id : option string;
}.

Inductive PyVal :=
  | VNone
  | VBool (b : bool)
  | VInt (n : Z)
  | VStr (s : string)
  | VRole (r : Role).

(** The exceptions the module raises itself, plus the ones that come out of
    its collaborators.  [BaseExn] stands for a [BaseException] that is not an
    [Exception] (KeyboardInterrupt, SystemExit): the [except Exception]
    clause of the wrapper does not see those. *)
Inductive Exn :=
  | ValueError (msg : string)
  | AttributeError (attr : string)
  | KeyError (key : string)
  | TypeError (msg : string)
  | Raised (cls msg : string)
  | BaseExn (cls : string).

Definition is_Exception (e : Exn) : bool :=
  match e with
  | BaseExn _ => false
  | _ => true
  end.

Inductive Result (A : Type) :=
  | Ok (a : A)
  | Err (e : Exn).
Arguments Ok {A} a.
Arguments Err {A} e.

(** ** Ordered dictionaries

    A Python [dict] keeps its keys in insertion order; assigning to a key
    that is already there keeps the key's position.  The registry's two
    dicts are iterated, so the order is part of the model. *)
Module PyDict.
Section Dict.
Context {V : Type}.

Definition t := list (string * V).

Definition empty : t := [].

Fixpoint get (k : string) (d : t) : option V :=
  match d with
  | [] => None
  | (k', v) :: d' => if decide (k = k') then Some v else get k d'
  end.

Definition contains (k : string) (d : t) : bool :=
  match get k d with
  | Some _ => true
  | None => false
  end.

Fixpoint set (k : string) (v : V) (d : t) : t :=
  match d with
  | [] => [(k, v)]
  | (k', v') :: d' =>
      if decide (k = k') then (k', v) :: d' else (k', v') :: set k v d'
  end.

Definition keys (d : t) : list string := map fst d.
End Dict.
Arguments t V : clear implicits.
End PyDict.

(** ** Secrets, specifications and callables *)

(** tracecat.db.Secret: [secret.name], and [secret.keys], each entry of which
    has a [key] and a [value]. *)
Record SecretKeyValue := {
  kv_key : string;
  kv_value : string;
}.

Record Secret := {
  secret_name : string;
  secret_keys : list SecretKeyValue;
}.

(** inspect.Parameter, reduced to what a specification is built from. *)
Record InspectParameter := {
  p_annotation : option string;
  p_default : option PyVal;
}.

(** Modelled from the spec: ParameterSpec is declared in
    tracecat/integrations/_meta.py; section 3 gives its fields. *)
Record ParameterSpec := {
  ps_name : string;
  ps_type_descriptor : string;
  ps_required : bool;
  ps_default : option PyVal;
}.

(** Modelled from the spec: IntegrationSpec is declared in
    tracecat/integrations/_meta.py; the fields are the keyword arguments
    [_create_spec] passes to its constructor. *)
Record IntegrationSpec := {
  spec_name : string;
  spec_description : string;
  spec_docstring : string;
  spec_platform : string;
  spec_parameters : list ParameterSpec;
}.

(** The object handed to the decorator.  Attributes that an arbitrary object
    may lack are options: reading a missing one raises [AttributeError].
    [__doc__] exists on every object and is [None] when there is no
    docstring.  [__annotations__] maps a name to the [str] of its annotation.
    [signature] is [inspect.signature(func).parameters] (in declaration
    order), or the exception [inspect.signature] raises.  [call] is the body:
    it sees and may change [os.environ]. *)
Record PyObj := {
  __name__ : option string;
  __doc__ : option string;
  __annotations__ : option (gmap string string);
  callable : bool;
  signature : Result (list (string * InspectParameter));
  call : list PyVal → gmap string PyVal → gmap string string →
         Result PyVal * gmap string string;
}.

(** The closure [wrapper] created by one run of [decorator_register]: its
    free variables are [func], [key] and [secrets] ([self] is the
    singleton). *)
Record Wrapper := {
  w_func : PyObj;
  w_key : string;
  w_secrets : option (list string);
}.

(** A value of a metadata record, [dict[str, Any]]. *)
Inductive MetaVal :=
  | MStr (s : string)
  | MSpec (spec : IntegrationSpec)
  | MVal (v : PyVal).

(** ** The process

    [environ] is [os.environ], a finite map from names to values (names are
    case sensitive, and every name and value is one [putenv] accepts).
    [_instance], [_integrations] and [_metadata] are the class attributes of
    [Registry]; [_instance] records whether the singleton exists yet. *)
Record Process := {
  environ : gmap string string;
  _instance : bool;
  _integrations : PyDict.t Wrapper;
  _metadata : PyDict.t (gmap string MetaVal);
}.

Definition with_environ (f : gmap string string → gmap string string)
    (s : Process) : Process :=
  {| environ := f (environ s);
     _instance := _instance s;
     _integrations := _integrations s;
     _metadata := _metadata s |}.

Definition with_integrations (f : PyDict.t Wrapper → PyDict.t Wrapper)
    (s : Process) : Process :=
  {| environ := environ s;
     _instance := _instance s;
     _integrations := f (_integrations s);
     _metadata := _metadata s |}.

Definition with_metadata
    (f : PyDict.t (gmap string MetaVal) → PyDict.t (gmap string MetaVal))
    (s : Process) : Process :=
  {| environ := environ s;
     _instance := _instance s;
     _integrations := _integrations s;
     _metadata := f (_metadata s) |}.

(** What an execution leaves behind, in order. *)
Inductive Level := DEBUG | INFO | ERROR.

Inductive Event :=
  | EvLog (lvl : Level) (msg : string)
  | EvFetch (role : Role) (secret_names : list string)
  | EvCall (key : string) (args : list PyVal) (kwargs : gmap string PyVal).

(** ** The monad: state, exceptions and the event record *)

Definition M (A : Type) : Type := Process → Result A * Process * list Event.

Definition ret {A} (a : A) : M A := λ s, (Ok a, s, []).

Definition raise {A} (e : Exn) : M A := λ s, (Err e, s, []).

Definition bind {A B} (m : M A) (f : A → M B) : M B := λ s,
  match m s with
  | (Ok a, s1, ev1) => let '(r, s2, ev2) := f a s1 in (r, s2, ev1 ++ ev2)
  | (Err e, s1, ev1) => (Err e, s1, ev1)
  end.

#[export] Instance M_ret : MRet M := @ret.
#[export] Instance M_bind : MBind M := λ A B f m, bind m f.

Definition lift {A} (r : Result A) : M A := λ s, (r, s, []).

Definition emit (e : Event) : M unit := λ s, (Ok tt, s, [e]).

Definition get_state : M Process := λ s, (Ok s, s, []).

Definition modify (f : Process → Process) : M unit := λ s, (Ok tt, f s, []).

(** [logger.<level>(msg, ...)]: the template is recorded, logging itself
    neither fails nor touches the process. *)
Definition log (lvl : Level) (msg : string) : M unit := emit (EvLog lvl msg).

(** [for x in l: f(x)] *)
Fixpoint for_each {A} (f : A → M unit) (l : list A) : M unit :=
  match l with
  | [] => ret tt
  | x :: l' => f x;; for_each f l'
  end.

(** The outcome of a block, reified: what a [try] statement inspects in its
    [except] and [finally] clauses. *)
Definition catch {A} (m : M A) : M (Result A) := λ s,
  let '(r, s1, ev) := m s in (Ok r, s1, ev).

(** [obj.attr] for an attribute the object may lack. *)
Definition getattr {A} (attr : string) (field : option A) : M A :=
  match field with
  | Some a => mret a
  | None => raise (AttributeError attr)
  end.

(** [[f(x) for x in l]], stopping at the first exception. *)
Fixpoint map_result {A B} (f : A → Result B) (l : list A) : Result (list B) :=
  match l with
  | [] => Ok []
  | x :: l' =>
      match f x with
      | Err e => Err e
      | Ok y =>
          match map_result f l' with
          | Err e => Err e
          | Ok ys => Ok (y :: ys)
          end
      end
  end.

(** Projections of a run. *)
Definition result_of {A} (x : Result A * Process * list Event) : Result A := x.1.1.
Definition state_of {A} (x : Result A * Process * list Event) : Process := x.1.2.
Definition events_of {A} (x : Result A * Process * list Event) : list Event := x.2.

(** ** os.environ *)

(** [os.environ] is the standard library's mapping over the environment of
    the process (CPython 3.11 on POSIX, the interpreter the module's
    [typing.Self] asks for).  Names and values are the encoded strings.
    [os.environ[k] = v] calls [putenv(k, v)] before it stores the pair, and
    [del os.environ[k]] calls [unsetenv(k)] before it deletes the name; both
    refuse some strings, and then the mapping is left as it was. *)
Fixpoint has_char (c : Ascii.ascii) (x : string) : bool :=
  match x with
  | EmptyString => false
  | String c' x' => Ascii.eqb c' c || has_char c x'
  end.

Definition NUL : Ascii.ascii := Ascii.zero.

(** [OSError(22, 'Invalid argument')] and the [ValueError]s of [putenv]. *)
Definition EINVAL : Exn := Raised "OSError" "[Errno 22] Invalid argument".
Definition EmbeddedNull : Exn := ValueError "embedded null byte".
Definition IllegalName : Exn := ValueError "illegal environment variable name".

(** The exception of [putenv(k, v)], if any: a NUL in the name or in the
    value, then a name with an equals sign, then the empty name. *)
Definition putenv_error (k v : string) : option Exn :=
  if has_char NUL k || has_char NUL v then Some EmbeddedNull
  else if has_char "="%char k then Some IllegalName
  else if decide (k = EmptyString) then Some EINVAL
  else None.

(** The exception of [unsetenv(k)], if any: a NUL in the name, then the
    empty name or a name with an equals sign. *)
Definition unsetenv_error (k : string) : option Exn :=
  if has_char NUL k then Some EmbeddedNull
  else if has_char "="%char k || bool_decide (k = EmptyString) then Some EINVAL
  else None.

(** [os.environ[k] = v] *)
Definition environ_setitem (k v : string) : M unit := λ s,
  match putenv_error k v with
  | Some e => (Err e, s, [])
  | None => (Ok tt, with_environ <[k := v]> s, [])
  end.

(** [del os.environ[k]]: the exception of [unsetenv], or [KeyError] when
    [k] is not set. *)
Definition environ_delitem (k : string) : M unit := λ s,
  match unsetenv_error k with
  | Some e => (Err e, s, [])
  | None =>
      match environ s !! k with
      | Some _ => (Ok tt, with_environ (delete k) s, [])
      | None => (Err (KeyError k), s, [])
      end
  end.

(** ** Registry._set_secrets / Registry._unset_secrets *)

Definition set_secret (secret : Secret) : M unit :=
  log INFO "Setting secret {!r}";;
  for_each (λ kv, environ_setitem (kv_key kv) (kv_value kv)) (secret_keys secret).

Definition _set_secrets (secrets : list Secret) : M unit :=
  for_each set_secret secrets.

Definition unset_secret (secret : Secret) : M unit :=
  log INFO "Deleting secret {!r}";;
  for_each (λ kv, environ_delitem (kv_key kv)) (secret_keys secret).

Definition _unset_secrets (secrets : list Secret) : M unit :=
  for_each unset_secret secrets.

(** ** The registry *)

(** [Registry.__new__]: the first construction creates the instance and the
    two empty dicts, every later one returns the same instance. *)
Definition __new__ : M unit :=
  s ← get_state;
  if _instance s then mret tt
  else modify (λ s, {| environ := environ s;
                       _instance := true;
                       _integrations := PyDict.empty;
                       _metadata := PyDict.empty |}).

(** [if secrets:] on a [list[str] | None]. *)
Definition truthy (secrets : option (list string)) : bool :=
  match secrets with
  | Some (_ :: _) => true
  | _ => false
  end.

(** [kwargs.pop(k, dflt)]: the value and what is left of [kwargs]. *)
Definition kwargs_pop (k : string) (dflt : PyVal) (kwargs : gmap string PyVal)
    : PyVal * gmap string PyVal :=
  (default dflt (kwargs !! k), delete k kwargs).

(** [Role(type="service")], the default of [kwargs.pop("__role", ...)]. *)
Definition service_role : Role := {| type := "service"; user_id := None |}.

(** [role.user_id] needs a [Role]. *)
Definition as_role (v : PyVal) : M Role :=
  match v with
  | VRole r => mret r
  | _ => raise (AttributeError "user_id")
  end.

(** The call of [func] with the positional [args] and the keyword [kwargs]. *)
Definition invoke (key : string) (func : PyObj) (args : list PyVal)
    (kwargs : gmap string PyVal) : M PyVal := λ s,
  if callable func then
    let '(r, env) := call func args kwargs (environ s) in
    (r, with_environ (λ _, env) s, [EvCall key args kwargs])
  else (Err (TypeError "object is not callable"), s, []).

(** The dict literal stored in [_metadata]: [**integration_kwargs] comes
    last, so a caller-supplied field of the same name wins. *)
Definition metadata_record (platform description return_type : string)
    (specification : IntegrationSpec) (integration_kwargs : gmap string PyVal)
    : gmap string MetaVal :=
  (MVal <$> integration_kwargs) ∪
  <["platform" := MStr platform]>
  (<["description" := MStr description]>
  (<["return_type" := MStr return_type]>
  (<["specification" := MSpec specification]> ∅))).

(** The parameters of [register(self, description, secrets=None,
    **integration_kwargs)] that a keyword of the call may name a second
    time, and the [TypeError] of the call then. *)
Definition register_parameters : list string :=
  ["self"; "description"; "secrets"].

Definition bound_twice (integration_kwargs : gmap string PyVal)
    : option string :=
  List.find (λ name, bool_decide (is_Some (integration_kwargs !! name)))
            register_parameters.

Definition MultipleValues (name : string) : Exn :=
  TypeError ("Registry.register() got multiple values for argument '"
             +:+ name +:+ "'").

Section Registry.

(** The collaborators the module imports from the rest of the package. *)
Variable validate_type_constraints : PyObj → Result unit.
Variable get_integration_platform : PyObj → Result string.
Variable get_integration_key : PyObj → Result string.
Variable param_to_spec : string → InspectParameter → Result ParameterSpec.
Variable batch_get_secrets : Role → list string → Result (list Secret).

Definition _get_secrets (role : Role) (secret_names : list string)
    : M (list Secret) :=
  log DEBUG "Getting secrets {}";;
  emit (EvFetch role secret_names);;
  lift (batch_get_secrets role secret_names).

Definition _create_spec (func : PyObj) (description : string)
    : M IntegrationSpec :=
  params ← lift (signature func);
  param_list ← lift (map_result (λ np, param_to_spec np.1 np.2) params);
  platform ← lift (get_integration_platform func);
  name ← getattr "__name__" (__name__ func);
  mret {| spec_name := name;
          spec_description := description;
          spec_docstring :=
            match __doc__ func with
            | Some d => if decide (d = EmptyString)
                      then "No documentation provided." else d
            | None => "No documentation provided."
            end;
          spec_platform := platform;
          spec_parameters := param_list |}.

(** The [try] block of [wrapper], up to the point where [except] and
    [finally] take over: the value of the local [secret_objs] at that point
    and the outcome of the block.  [secret_objs] is assigned when the fetch
    has returned, before the secrets are set. *)
Definition wrapper_try (w : Wrapper) (role : Role) (args : list PyVal)
    (kwargs : gmap string PyVal) : M (list Secret * Result PyVal) :=
  log INFO "Executing in subprocess";;
  if truthy (w_secrets w) then
    log INFO "Pull secrets";;
    fetched ← catch (_get_secrets role (default [] (w_secrets w)));
    match fetched with
    | Err e => mret ([], Err e)
    | Ok secret_objs =>
        r ← catch (_set_secrets secret_objs;;
                   invoke (w_key w) (w_func w) args kwargs);
        mret (secret_objs, r)
    end
  else
    r ← catch (invoke (w_key w) (w_func w) args kwargs);
    mret ([], r).

Definition wrapper (w : Wrapper) (args : list PyVal)
    (kwargs : gmap string PyVal) : M PyVal :=
  let '(role, kwargs) :=
    kwargs_pop "__role" (VRole service_role) kwargs in
  role ← as_role role;
  (* with logger.contextualize(user_id=role.user_id, pid=os.getpid()): try: *)
  '(secret_objs, outcome) ← wrapper_try w role args kwargs;
  (* except Exception as e: *)
  match outcome with
  | Err e => if is_Exception e
             then log ERROR "Error running integration {!r}: {!s}"
             else mret tt
  | Ok _ => mret tt
  end;;
  (* finally: *)
  log INFO "Cleaning up after integration {!r}";;
  _unset_secrets secret_objs;;
  (* the pending return value or exception *)
  lift outcome.

Definition decorator_register (description : string)
    (secrets : option (list string)) (integration_kwargs : gmap string PyVal)
    (func : PyObj) : M Wrapper :=
  _ ← getattr "__name__" (__name__ func);
  log INFO "Registering integration";;
  lift (validate_type_constraints func);;
  platform ← lift (get_integration_platform func);
  key ← lift (get_integration_key func);
  let wrapper := {| w_func := func; w_key := key; w_secrets := secrets |} in
  s ← get_state;
  if PyDict.contains key (_integrations s) then
    raise (ValueError ("Integration '" +:+ key +:+ "' is already registered."))
  else if negb (callable func) then
    raise (ValueError "Provided object is not a callable function.")
  else
    modify (with_integrations (PyDict.set key wrapper));;
    annotations ← getattr "__annotations__" (__annotations__ func);
    specification ← _create_spec func description;
    modify (with_metadata (PyDict.set key
      (metadata_record platform description
         (default "None" (annotations !! "return"))
         specification integration_kwargs)));;
    mret wrapper.

(** [registry.register(description, secrets, **integration_kwargs)] only
    builds the decorator.  Python binds the arguments first: a keyword that
    names one of the parameters [self], [description] and [secrets] cannot
    also arrive in [**integration_kwargs], the call raises [TypeError]
    instead.  (With several such keywords Python names the first one in the
    order of the call, which the map does not record; the model names the
    first one in the order of the parameters.) *)
Definition register (description : string) (secrets : option (list string))
    (integration_kwargs : gmap string PyVal) : Result (PyObj → M Wrapper) :=
  match bound_twice integration_kwargs with
  | Some name => Err (MultipleValues name)
  | None => Ok (decorator_register description secrets integration_kwargs)
  end.

End Registry.

(** ** Queries *)

Definition __contains__ (name : string) : M bool :=
  s ← get_state;
  mret (PyDict.contains name (_integrations s)).

Definition get_integration (name : string) : M Wrapper :=
  s ← get_state;
  match PyDict.get name (_integrations s) with
  | None => raise (ValueError ("Integration '" +:+ name +:+ "' not found."))
  | Some w => mret w
  end.

Definition __getitem__ (name : string) : M Wrapper := get_integration name.

Definition list_integrations : M (list string) :=
  s ← get_state;
  mret (PyDict.keys (_integrations s)).

(** [self.metadata[key]["specification"]] *)
Definition specification_of (metadata : PyDict.t (gmap string MetaVal))
    (key : string) : Result MetaVal :=
  match PyDict.get key metadata with
  | None => Err (KeyError key)
  | Some record =>
      match record !! "specification" with
      | None => Err (KeyError "specification")
      | Some v => Ok v
      end
  end.

Definition get_registered_integration_specs : M (list MetaVal) :=
  s ← get_state;
  lift (map_result (specification_of (_metadata s))
                   (PyDict.keys (_integrations s))).

(** * Vocabulary of the statements *)

(** ** Environment injection and removal *)

(** The environment names a list of secret records injects, in the order the
    two loops visit them. *)
Definition secret_env_keys (secrets : list Secret) : list string :=
  flat_map (λ secret, map kv_key (secret_keys secret)) secrets.

Definition secret_env_items (secrets : list Secret) : list (string * string) :=
  flat_map (λ secret, map (λ kv, (kv_key kv, kv_value kv)) (secret_keys secret))
           secrets.

(** The names and the pairs that [os.environ] takes. *)
Definition accepted_name (k : string) : Prop := unsetenv_error k = None.

Definition accepted_item (kv : string * string) : Prop :=
  putenv_error kv.1 kv.2 = None.

(** What the two loops do to [os.environ], without the monad: the map
    with every pair written, the loop of [_set_secrets] that stops at the
    first pair [putenv] refuses, and the loop of [_unset_secrets] that stops
    at the first name [unsetenv] refuses or that is not set. *)
Definition set_items (items : list (string * string))
    (env : gmap string string) : gmap string string :=
  fold_left (λ m kv, <[kv.1 := kv.2]> m) items env.

Fixpoint put_items (items : list (string * string)) (env : gmap string string)
    : Result unit * gmap string string :=
  match items with
  | [] => (Ok tt, env)
  | (k, v) :: items' =>
      match putenv_error k v with
      | Some e => (Err e, env)
      | None => put_items items' (<[k := v]> env)
      end
  end.

Fixpoint del_keys (ks : list string) (env : gmap string string)
    : Result unit * gmap string string :=
  match ks with
  | [] => (Ok tt, env)
  | k :: ks' =>
      match unsetenv_error k with
      | Some e => (Err e, env)
      | None =>
          match env !! k with
          | Some _ => del_keys ks' (delete k env)
          | None => (Err (KeyError k), env)
          end
      end
  end.

(** Some name occurs in two different records. *)
Definition shared_key (secrets : list Secret) : Prop :=
  ∃ i j si sj k,
    i ≠ j ∧ secrets !! i = Some si ∧ secrets !! j = Some sj ∧
    k ∈ map kv_key (secret_keys si) ∧ k ∈ map kv_key (secret_keys sj).

(** The calls of an integration body among the events of a run. *)
Definition is_call (e : Event) : bool :=
  match e with
  | EvCall _ _ _ => true
  | _ => false
  end.

Definition is_log (e : Event) : bool :=
  match e with
  | EvLog _ _ => true
  | _ => false
  end.

(** What a run of [wrapper] may leave behind when it was called with
    [args] and [kwargs] and resolved the caller to [role]: log lines, the
    fetch of its own secrets for [role], and calls of its own body with
    [args] and with [kwargs] less the ["__role"] entry. *)
Definition wrapper_event (w : Wrapper) (role : Role) (args : list PyVal)
    (kwargs : gmap string PyVal) (e : Event) : Prop :=
  match e with
  | EvLog _ _ => True
  | EvFetch r names => r = role ∧ names = default [] (w_secrets w)
  | EvCall key a kw => key = w_key w ∧ a = args ∧ kw = delete "__role" kwargs
  end.

(** ** Registration attempts *)

(** The two [ValueError]s of the decorator. *)
Definition DuplicateRegistration (key : string) : Exn :=
  ValueError ("Integration '" +:+ key +:+ "' is already registered.").

Definition InvalidIntegration : Exn :=
  ValueError "Provided object is not a callable function.".

(** One use of the decorator:
    [registry.register(description, secrets, **kwargs)(func)]. *)
Record Attempt := {
  a_description : string;
  a_secrets : option (list string);
  a_kwargs : gmap string PyVal;
  a_func : PyObj;
}.

(** The process right after [registry = Registry()] at import time. *)
Definition fresh (env : gmap string string) : Process :=
  state_of (__new__ {| environ := env;
                       _instance := false;
                       _integrations := PyDict.empty;
                       _metadata := PyDict.empty |}).

(** The two dicts have the same keys, and every record has its
    specification. *)
Definition registry_consistent (s : Process) : Prop :=
  ∀ k, PyDict.contains k (_integrations s) = PyDict.contains k (_metadata s) ∧
       (PyDict.contains k (_integrations s) = true →
        ∃ v, specification_of (_metadata s) k = Ok v).

(** What the dict literal of [decorator_register] leaves under
    ["specification"]: the built specification, unless the caller passed a
    keyword argument of that name. *)
Definition stored_specification (specification : IntegrationSpec)
    (integration_kwargs : gmap string PyVal) : MetaVal :=
  match integration_kwargs !! "specification" with
  | Some v => MVal v
  | None => MSpec specification
  end.

(** The registry holds exactly the entries [reg], in this order. *)
Definition holds (s : Process) (reg : list (string * MetaVal)) : Prop :=
  PyDict.keys (_integrations s) = map fst reg ∧
  PyDict.keys (_metadata s) = map fst reg ∧
  NoDup (map fst reg) ∧
  ∀ k v, (k, v) ∈ reg → specification_of (_metadata s) k = Ok v.

Section Attempts.

Variable validate_type_constraints : PyObj → Result unit.
Variable get_integration_platform : PyObj → Result string.
Variable get_integration_key : PyObj → Result string.
Variable param_to_spec : string → InspectParameter → Result ParameterSpec.

Definition attempt (a : Attempt) : M Wrapper :=
  match register validate_type_constraints get_integration_platform
          get_integration_key param_to_spec
          (a_description a) (a_secrets a) (a_kwargs a) with
  | Ok decorator => decorator (a_func a)
  | Err e => raise e
  end.

(** A sequence of attempts, whatever each of them does. *)
Definition attempts (l : list Attempt) (s : Process) : Process :=
  fold_left (λ s a, state_of (attempt a s)) l s.

(** An attempt succeeds when the decorator returns the wrapper; it is
    rejected when the decorator raises and has stored nothing. *)
Definition accepted (a : Attempt) (s : Process) : Prop :=
  ∃ w, result_of (attempt a s) = Ok w.

Definition rejected (a : Attempt) (s : Process) : Prop :=
  ∃ e, result_of (attempt a s) = Err e ∧ state_of (attempt a s) = s.

Fixpoint settled (l : list Attempt) (s : Process) : Prop :=
  match l with
  | [] => True
  | a :: l' =>
      (accepted a s ∨ rejected a s) ∧ settled l' (state_of (attempt a s))
  end.

(** The key and the stored specification of each attempt that succeeded,
    in the order of the attempts. *)
Definition registered_by (a : Attempt) (s : Process)
    : list (string * MetaVal) :=
  match result_of (attempt a s),
        result_of (_create_spec get_integration_platform param_to_spec
                     (a_func a) (a_description a) s) with
  | Ok w, Ok specification =>
      [(w_key w, stored_specification specification (a_kwargs a))]
  | _, _ => []
  end.

Fixpoint registered (l : list Attempt) (s : Process)
    : list (string * MetaVal) :=
  match l with
  | [] => []
  | a :: l' => registered_by a s ++ registered l' (state_of (attempt a s))
  end.

End Attempts.

(** ** Sample collaborators and objects

    One concrete choice of the imported helpers, to run the registry on
    examples.  The general statements below hold for every choice. *)
Module Demo.

(** Modelled from the spec: the supported constraint grammar of
    tracecat/integrations/_meta.py is not in the sources; the class
    docstring and section 4.2 only promise the simple builtin types, and
    section 4.2 renders a parameter without a constraint as a wildcard. *)
Definition supported (annotation : option string) : bool :=
  match annotation with
  | Some t => bool_decide (t ∈ ["int"; "str"; "bool"; "float"])
  | None => true
  end.

(** Modelled from the spec: validate_type_constraints
    (tracecat/integrations/_meta.py) rejects a callable with a parameter
    whose constraint is not supported (section 4.2). *)
Definition validate_type_constraints (func : PyObj) : Result unit :=
  match signature func with
  | Err e => Err e
  | Ok params =>
      if forallb (λ np : string * InspectParameter, supported (p_annotation np.2))
                 params
      then Ok tt
      else Err (ValueError "Unsupported type constraint")
  end.

(** Modelled from the spec: get_integration_platform and
    get_integration_key (tracecat/integrations/utils.py) are pure functions
    of the callable's identity; without a platform of its own a callable
    gets the default one, and the key is made of the platform and the
    declared name (section 4.1). *)
Definition get_integration_platform (func : PyObj) : Result string :=
  Ok "demo".

Definition get_integration_key (func : PyObj) : Result string :=
  match __name__ func with
  | Some name => Ok ("integrations.demo." +:+ name)
  | None => Err (AttributeError "__name__")
  end.

(** Modelled from the spec: param_to_spec (tracecat/integrations/_meta.py)
    gives the name, the rendered constraint (a wildcard when there is
    none), [required] iff there is no default, and the default
    (section 4.2). *)
Definition param_to_spec (name : string) (param : InspectParameter)
    : Result ParameterSpec :=
  Ok {| ps_name := name;
        ps_type_descriptor := default "Any" (p_annotation param);
        ps_required := match p_default param with None => true | Some _ => false end;
        ps_default := p_default param |}.

(** Modelled from the spec: batch_get_secrets (tracecat/secrets.py) returns
    one record per requested name or fails as a whole (section 4.3); here
    over a store of three secrets. *)
Definition store : list Secret :=
  [ {| secret_name := "smtp_creds";
       secret_keys := [ {| kv_key := "HOST"; kv_value := "mail.example.org" |};
                        {| kv_key := "PASS"; kv_value := "hunter2" |} ] |};
    {| secret_name := "slack";
       secret_keys := [ {| kv_key := "API_KEY"; kv_value := "xoxb-1" |} ] |};
    {| secret_name := "jira";
       secret_keys := [ {| kv_key := "API_KEY"; kv_value := "jira-2" |} ] |} ].

Definition batch_get_secrets (role : Role) (secret_names : list string)
    : Result (list Secret) :=
  map_result
    (λ wanted,
       match List.find (λ secret, bool_decide (secret_name secret = wanted))
                       store with
       | Some secret => Ok secret
       | None => Err (Raised "SecretNotFound" wanted)
       end)
    secret_names.

(** [def send_email(to: str) -> bool: return True], documented as
    "Send an email." *)
Definition send_email : PyObj :=
  {| __name__ := Some "send_email";
     __doc__ := Some "Send an email.";
     __annotations__ := Some (<["to" := "<class 'str'>"]>
                             (<["return" := "<class 'bool'>"]> ∅));
     callable := true;
     signature := Ok [("to", {| p_annotation := Some "str"; p_default := None |})];
     call := λ _ _ env, (Ok (VBool true), env) |}.

(** A redefinition of [send_email] in the same module, with a parameter
    outside the supported constraints. *)
Definition send_email_v2 : PyObj :=
  {| __name__ := Some "send_email";
     __doc__ := None;
     __annotations__ := Some (<["to" := "list[str] | dict[str, int]"]> ∅);
     callable := true;
     signature := Ok [("to", {| p_annotation := Some "list[str] | dict[str, int]";
                                p_default := None |})];
     call := λ _ _ env, (Ok VNone, env) |}.

(** [def post_message(text: str = "hi") -> None: raise RuntimeError("boom")] *)
Definition post_message : PyObj :=
  {| __name__ := Some "post_message";
     __doc__ := None;
     __annotations__ := Some (<["text" := "<class 'str'>"]>
                             (<["return" := "None"]> ∅));
     callable := true;
     signature := Ok [("text", {| p_annotation := Some "str";
                                  p_default := Some (VStr "hi") |})];
     call := λ _ _ env, (Err (Raised "RuntimeError" "boom"), env) |}.

(** A redefinition of [post_message] that takes a list of lines or a
    mapping: a parameter outside the supported constraints. *)
Definition post_message_v2 : PyObj :=
  {| __name__ := Some "post_message";
     __doc__ := None;
     __annotations__ := Some (<["text" := "list[str] | dict[str, int]"]> ∅);
     callable := true;
     signature := Ok [("text", {| p_annotation := Some "list[str] | dict[str, int]";
                                  p_default := None |})];
     call := λ _ _ env, (Ok VNone, env) |}.

(** The integer [42]: no [__name__], no [__annotations__], not callable. *)
Definition forty_two : PyObj :=
  {| __name__ := None;
     __doc__ := Some "int([x]) -> integer";
     __annotations__ := None;
     callable := false;
     signature := Err (TypeError "42 is not a callable object");
     call := λ _ _ env, (Err (TypeError "'int' object is not callable"), env) |}.

(** An instance of a class that defines [__name__] and
    [__call__(self, name: str)]: callable, with a signature, but an
    instance has no [__annotations__]. *)
Definition greeter : PyObj :=
  {| __name__ := Some "greeter";
     __doc__ := Some "Greets.";
     __annotations__ := None;
     callable := true;
     signature := Ok [("name", {| p_annotation := Some "str"; p_default := None |})];
     call := λ _ _ env, (Ok (VStr "hello"), env) |}.

(** A module-like object: it has a [__name__] but cannot be called. *)
Definition settings : PyObj :=
  {| __name__ := Some "settings";
     __doc__ := None;
     __annotations__ := Some ∅;
     callable := false;
     signature := Ok [];
     call := λ _ _ env, (Err (TypeError "'module' object is not callable"), env) |}.

Definition try_register : Attempt → M Wrapper :=
  attempt validate_type_constraints get_integration_platform
    get_integration_key param_to_spec.

Definition plain (description : string) (secrets : option (list string))
    (func : PyObj) : Attempt :=
  {| a_description := description; a_secrets := secrets;
     a_kwargs := ∅; a_func := func |}.

(** A caller, and some invocations and processes to run the examples on. *)
Definition alice : Role := {| type := "user"; user_id := Some "alice" |}.

Definition smtp_creds : list Secret :=
  [ {| secret_name := "smtp_creds";
       secret_keys := [ {| kv_key := "HOST"; kv_value := "mail.example.org" |};
                        {| kv_key := "PASS"; kv_value := "hunter2" |} ] |} ].

Definition tokens : list Secret :=
  [ {| secret_name := "slack";
       secret_keys := [ {| kv_key := "API_KEY"; kv_value := "xoxb-1" |} ] |};
    {| secret_name := "jira";
       secret_keys := [ {| kv_key := "API_KEY"; kv_value := "jira-2" |} ] |} ].

Definition home : Process := fresh (<["PATH" := "/usr/bin"]> ∅).

Definition host_set : Process :=
  fresh (<["HOST" := "localhost"]> (<["PATH" := "/usr/bin"]> ∅)).

Definition kwargs_alice : gmap string PyVal :=
  <["__role" := VRole alice]> (<["text" := VStr "hello"]> ∅).

(** [post_message] registered with the secrets ["slack"], ["jira"] and
    ["smtp_creds"]; with a secret the store does not have; without
    secrets. *)
Definition post_with_tokens : Wrapper :=
  {| w_func := post_message;
     w_key := "integrations.demo.post_message";
     w_secrets := Some ["slack"; "jira"; "smtp_creds"] |}.

Definition post_with_two : Wrapper :=
  {| w_func := post_message;
     w_key := "integrations.demo.post_message";
     w_secrets := Some ["slack"; "jira"] |}.

Definition post_with_unknown : Wrapper :=
  {| w_func := post_message;
     w_key := "integrations.demo.post_message";
     w_secrets := Some ["pagerduty"] |}.

Definition send_plain : Wrapper :=
  {| w_func := send_email;
     w_key := "integrations.demo.send_email";
     w_secrets := None |}.

(** The process after [send_email] and then [post_message] were
    registered. *)
Definition two_registered : Process :=
  state_of (try_register (plain "Post a message" None post_message)
    (state_of (try_register (plain "Send an email" (Some ["smtp_creds"])
                               send_email) home))).

(** A history: a registration, the same again, a second integration, a
    redefinition of the first with an unsupported signature, a
    non-callable, and the first once more. *)
Definition history : list Attempt :=
  [ plain "Send an email" (Some ["smtp_creds"]) send_email;
    plain "Send an email" (Some ["smtp_creds"]) send_email;
    plain "Post a message" None post_message;
    plain "Send an email, again" None send_email_v2;
    plain "Settings" None settings;
    plain "Send an email" None send_email ].

End Demo.

(** ** Vocabulary of the further properties *)

(** The value the loops of [_set_secrets] leave under [k]: the one of the
    last pair that names [k]. *)
Fixpoint last_value (k : string) (items : list (string * string))
    : option string :=
  match items with
  | [] => None
  | (k', v) :: rest =>
      match last_value k rest with
      | Some v' => Some v'
      | None => if decide (k = k') then Some v else None
      end
  end.

(** The secret fetches among the events of a run. *)
Definition is_fetch (e : Event) : bool :=
  match e with
  | EvFetch _ _ => true
  | _ => false
  end.


(** ** Further sample objects *)
Module Samples.

(** [def read_host() -> str: return os.environ["HOST"]], documented with
    the empty string. *)
Definition read_host : PyObj :=
  {| __name__ := Some "read_host";
     __doc__ := Some EmptyString;
     __annotations__ := Some (<["return" := "<class 'str'>"]> ∅);
     callable := true;
     signature := Ok [];
     call := λ _ _ env,
       (match env !! "HOST" with
        | Some host => Ok (VStr host)
        | None => Err (KeyError "HOST")
        end, env) |}.

(** [read_host] registered with the secret ["smtp_creds"], and with the
    empty list of secrets. *)
Definition read_with_smtp : Wrapper :=
  {| w_func := read_host;
     w_key := "integrations.demo.read_host";
     w_secrets := Some ["smtp_creds"] |}.

Definition read_with_none : Wrapper :=
  {| w_func := read_host;
     w_key := "integrations.demo.read_host";
     w_secrets := Some [] |}.

(** [def echo(text): return text]; the call binds its arguments as Python
    does and raises [TypeError] for any other keyword. *)
Definition echo : PyObj :=
  {| __name__ := Some "echo";
     __doc__ := None;
     __annotations__ := Some ∅;
     callable := true;
     signature := Ok [("text", {| p_annotation := None; p_default := None |})];
     call := λ args kwargs env,
       match map_to_list (delete "text" kwargs) with
       | _ :: _ =>
           (Err (TypeError "echo() got an unexpected keyword argument"), env)
       | [] =>
           match args, kwargs !! "text" with
           | [], Some v => (Ok v, env)
           | [v], None => (Ok v, env)
           | [], None =>
               (Err (TypeError "echo() missing 1 required positional argument"),
                env)
           | _, _ =>
               (Err (TypeError "echo() got multiple values for argument"), env)
           end
       end |}.

Definition echo_plain : Wrapper :=
  {| w_func := echo;
     w_key := "integrations.demo.echo";
     w_secrets := None |}.

(** A secret whose one name has an equals sign. *)
Definition legacy : list Secret :=
  [ {| secret_name := "legacy";
       secret_keys := [ {| kv_key := "A=B"; kv_value := "1" |} ] |} ].

(** Keyword arguments whose ["__role"] is not a [Role]. *)
Definition kwargs_bad_role : gmap string PyVal :=
  <["__role" := VStr "alice"]> ∅.

End Samples.

(** * Properties *)

(** The pairs of a concrete list of records are pairs [os.environ] takes. *)
Ltac accepted := vm_compute; repeat constructor.

(** An attempt on a concrete process either succeeded or was rejected. *)
Ltac settle :=
  first [ left; eexists; vm_compute; reflexivity
        | right; eexists; split; vm_compute; reflexivity ].

(** ** Environment injection and removal *)

(** Running the monad, one equation per construct. *)
Lemma run_bind {A B} (m : M A) (f : A → M B) s :
  (m ≫= f) s =
  match m s with
  | (Ok a, s1, ev1) => let '(r, s2, ev2) := f a s1 in (r, s2, ev1 ++ ev2)
  | (Err e, s1, ev1) => (Err e, s1, ev1)
  end.
Proof. reflexivity. Qed.

Lemma run_log_bind {B} lvl msg (k : M B) s :
  (log lvl msg;; k) s = let '(r, s2, ev2) := k s in (r, s2, EvLog lvl msg :: ev2).
Proof. reflexivity. Qed.

Lemma run_for_each_cons {A} (f : A → M unit) x l s :
  for_each f (x :: l) s = (f x;; for_each f l) s.
Proof. reflexivity. Qed.

Lemma with_environ_id s : with_environ (λ _, environ s) s = s.
Proof. by destruct s. Qed.

Lemma set_items_app items1 items2 env :
  set_items (items1 ++ items2) env = set_items items2 (set_items items1 env).
Proof. apply fold_left_app. Qed.

Lemma put_items_app items1 items2 env :
  put_items (items1 ++ items2) env =
  match put_items items1 env with
  | (Ok _, env1) => put_items items2 env1
  | failed => failed
  end.
Proof.
  revert env. induction items1 as [|[k v] items1 IH]; intros env; simpl; [done|].
  destruct (putenv_error k v); [done|apply IH].
Qed.

Lemma del_keys_app ks1 ks2 env :
  del_keys (ks1 ++ ks2) env =
  match del_keys ks1 env with
  | (Ok _, env1) => del_keys ks2 env1
  | failed => failed
  end.
Proof.
  revert env. induction ks1 as [|k ks1 IH]; intros env; simpl; [done|].
  destruct (unsetenv_error k); [done|].
  destruct (env !! k); [apply IH | done].
Qed.

(** When [putenv] takes every pair, the loop writes them all. *)
Lemma put_items_accepted items env :
  Forall accepted_item items → put_items items env = (Ok tt, set_items items env).
Proof.
  intros H. revert env.
  induction H as [|[k v] items Hkv _ IH]; intros env; [done|].
  cbn. unfold accepted_item in Hkv. cbn in Hkv. rewrite Hkv. apply IH.
Qed.

(** A name [putenv] took is a name [unsetenv] takes. *)
Lemma accepted_item_name k v : accepted_item (k, v) → accepted_name k.
Proof.
  unfold accepted_item, accepted_name, putenv_error, unsetenv_error. cbn.
  destruct (has_char NUL k); [done|]. cbn.
  destruct (has_char NUL v); [done|].
  destruct (has_char "=" k); [done|]. cbn.
  destruct (decide (k = EmptyString)); [done|].
  by rewrite bool_decide_false.
Qed.

Lemma for_each_setitem kvs s :
  for_each (λ kv, environ_setitem (kv_key kv) (kv_value kv)) kvs s =
  (let '(r, env) :=
     put_items (map (λ kv, (kv_key kv, kv_value kv)) kvs) (environ s) in
   (r, with_environ (λ _, env) s, [])).
Proof.
  revert s. induction kvs as [|kv kvs IH]; intros s.
  - cbn. by rewrite with_environ_id.
  - rewrite run_for_each_cons, run_bind. unfold environ_setitem at 1.
    cbn [map put_items].
    destruct (putenv_error (kv_key kv) (kv_value kv)) eqn:E.
    + by rewrite with_environ_id.
    + rewrite IH. cbn. by destruct (put_items _ _) as [[]].
Qed.

Lemma for_each_delitem kvs s :
  for_each (λ kv, environ_delitem (kv_key kv)) kvs s =
  (let '(r, env) := del_keys (map kv_key kvs) (environ s) in
   (r, with_environ (λ _, env) s, [])).
Proof.
  revert s. induction kvs as [|kv kvs IH]; intros s.
  - cbn. by rewrite with_environ_id.
  - rewrite run_for_each_cons, run_bind. unfold environ_delitem at 1.
    cbn [map del_keys].
    destruct (unsetenv_error (kv_key kv)) eqn:Eu; [by rewrite with_environ_id|].
    destruct (environ s !! kv_key kv) eqn:E.
    + rewrite IH. cbn. by destruct (del_keys _ _) as [[]].
    + by rewrite with_environ_id.
Qed.

Lemma set_secret_run secret s :
  set_secret secret s =
  (let '(r, env) :=
     put_items (map (λ kv, (kv_key kv, kv_value kv)) (secret_keys secret))
               (environ s) in
   (r, with_environ (λ _, env) s, [EvLog INFO "Setting secret {!r}"])).
Proof.
  unfold set_secret. rewrite run_log_bind, for_each_setitem.
  by destruct (put_items _ _).
Qed.

Lemma unset_secret_run secret s :
  unset_secret secret s =
  (let '(r, env) := del_keys (map kv_key (secret_keys secret)) (environ s) in
   (r, with_environ (λ _, env) s, [EvLog INFO "Deleting secret {!r}"])).
Proof.
  unfold unset_secret. rewrite run_log_bind, for_each_delitem.
  by destruct (del_keys _ _).
Qed.

(** [_set_secrets] writes the pairs in order and stops at the first one
    that [putenv] refuses. *)
Lemma _set_secrets_run secrets s :
  ∃ ev, _set_secrets secrets s =
        (let '(r, env) := put_items (secret_env_items secrets) (environ s) in
         (r, with_environ (λ _, env) s, ev))
        ∧ Forall is_log ev.
Proof.
  revert s. induction secrets as [|secret secrets IH]; intros s.
  - exists []. split; [|constructor]. cbn. by rewrite with_environ_id.
  - unfold _set_secrets in *. rewrite run_for_each_cons, run_bind.
    rewrite set_secret_run. cbn [secret_env_items flat_map].
    rewrite put_items_app.
    destruct (put_items (map (λ kv, (kv_key kv, kv_value kv))
                             (secret_keys secret)) (environ s))
      as [[[]|e] env1] eqn:E1.
    + destruct (IH (with_environ (λ _, env1) s)) as (ev & Hrun & Hev).
      exists (EvLog INFO "Setting secret {!r}" :: ev). split; [|by constructor].
      rewrite Hrun. cbn. by destruct (put_items _ env1) as [? ?].
    + exists [EvLog INFO "Setting secret {!r}"].
      split; [done|by repeat constructor].
Qed.

(** [_set_secrets] on pairs that [putenv] takes. *)
Lemma _set_secrets_accepted secrets s :
  Forall accepted_item (secret_env_items secrets) →
  ∃ ev, _set_secrets secrets s =
        (Ok tt,
         with_environ (λ _, set_items (secret_env_items secrets) (environ s)) s,
         ev)
        ∧ Forall is_log ev.
Proof.
  intros Hacc. destruct (_set_secrets_run secrets s) as (ev & Hrun & Hev).
  exists ev. split; [|done]. by rewrite Hrun, put_items_accepted.
Qed.

(** [_unset_secrets] deletes the names in order and stops at the first one
    that [unsetenv] refuses or that is not set. *)
Lemma _unset_secrets_run secrets s :
  ∃ ev, _unset_secrets secrets s =
        (let '(r, env) := del_keys (secret_env_keys secrets) (environ s) in
         (r, with_environ (λ _, env) s, ev))
        ∧ Forall is_log ev.
Proof.
  revert s. induction secrets as [|secret secrets IH]; intros s.
  - exists []. split; [|constructor]. cbn. by rewrite with_environ_id.
  - unfold _unset_secrets in *. rewrite run_for_each_cons, run_bind.
    rewrite unset_secret_run. cbn [secret_env_keys flat_map].
    rewrite del_keys_app.
    destruct (del_keys (map kv_key (secret_keys secret)) (environ s))
      as [[[]|e] env1] eqn:E1.
    + destruct (IH (with_environ (λ _, env1) s)) as (ev & Hrun & Hev).
      exists (EvLog INFO "Deleting secret {!r}" :: ev). split; [|by constructor].
      rewrite Hrun. cbn. by destruct (del_keys _ env1) as [? ?].
    + exists [EvLog INFO "Deleting secret {!r}"]. split; [done|by repeat constructor].
Qed.

(** *** The two loops on the bare map *)

Lemma secret_env_items_keys secrets :
  map fst (secret_env_items secrets) = secret_env_keys secrets.
Proof.
  induction secrets as [|secret secrets IH]; [done|].
  unfold secret_env_items, secret_env_keys in *. cbn [flat_map].
  rewrite map_app, IH. f_equal.
  induction (secret_keys secret) as [|kv kvs IHk]; [done|].
  cbn. by rewrite IHk.
Qed.

Lemma set_items_is_Some items env k :
  is_Some (env !! k) ∨ k ∈ map fst items → is_Some (set_items items env !! k).
Proof.
  revert env. induction items as [|[k' v] items IH]; intros env; cbn.
  - by intros [?|?%not_elem_of_nil].
  - intros H. apply IH. destruct (decide (k = k')) as [->|Hne].
    + left. rewrite lookup_insert_eq. by eexists.
    + rewrite lookup_insert_ne by done.
      destruct H as [?|[?|?]%elem_of_cons]; auto. done.
Qed.

Lemma foldr_delete_set_items items env ks :
  (∀ k, k ∈ map fst items → k ∈ ks) →
  foldr delete (set_items items env) ks = foldr delete env ks.
Proof.
  revert env. induction items as [|[k v] items IH]; intros env Hks; [done|].
  cbn. rewrite IH.
  - apply foldr_delete_insert_in, Hks. cbn. left.
  - intros k' ?. apply Hks. cbn. by right.
Qed.

Lemma items_accepted_keys secrets :
  Forall accepted_item (secret_env_items secrets) →
  Forall accepted_name (secret_env_keys secrets).
Proof.
  rewrite <- secret_env_items_keys, Forall_fmap.
  intros H. eapply Forall_impl; [exact H|].
  intros [k v]. apply accepted_item_name.
Qed.

Lemma del_keys_ok ks env :
  NoDup ks → Forall accepted_name ks → (∀ k, k ∈ ks → is_Some (env !! k)) →
  del_keys ks env = (Ok tt, foldr delete env ks).
Proof.
  intros Hnd. revert env.
  induction Hnd as [|k ks Hk Hnd IH]; intros env Hacc Hin; [done|].
  apply Forall_cons in Hacc as [Hacck Hacc].
  cbn. rewrite Hacck. destruct (Hin k) as [v ->]; [left|].
  rewrite IH; [|done|].
  - by rewrite delete_foldr_delete.
  - intros k' Hk'. rewrite lookup_delete_ne; [|intros ->; done].
    apply Hin. by right.
Qed.

(** Deleting fails as soon as one of the names is not set, or one name is
    to be deleted twice; with [KeyError] when [unsetenv] takes the names. *)
Lemma del_keys_fails ks env :
  (∃ k, k ∈ ks ∧ env !! k = None) ∨ ¬ NoDup ks →
  ∃ e, (del_keys ks env).1 = Err e ∧
       (Forall accepted_name ks → ∃ k, k ∈ ks ∧ e = KeyError k).
Proof.
  revert env. induction ks as [|k0 ks IH]; intros env H.
  - destruct H as [(k & Hk%not_elem_of_nil & _)|H]; [done|].
    destruct H. constructor.
  - cbn. destruct (unsetenv_error k0) as [e0|] eqn:Eu.
    { exists e0. split; [done|].
      intros [Hacc _]%Forall_cons. unfold accepted_name in Hacc. congruence. }
    destruct (env !! k0) as [v|] eqn:E0.
    + destruct (IH (delete k0 env)) as (e & Hr & Hkey).
      * destruct H as [(k & [->|Hk]%elem_of_cons & Hnone)|Hdup].
        -- congruence.
        -- left. exists k. split; [done|].
           rewrite lookup_delete_None. auto.
        -- destruct (decide (k0 ∈ ks)) as [Hin|Hnin].
           ++ left. exists k0. split; [done|]. apply lookup_delete_eq.
           ++ right. intros Hnd. apply Hdup. by constructor.
      * exists e. split; [done|].
        intros [_ Hacc]%Forall_cons. destruct (Hkey Hacc) as (k & Hk & ->).
        exists k. split; [by right|done].
    + exists (KeyError k0). split; [done|]. intros _.
      exists k0. split; [left|done].
Qed.

Lemma del_keys_KeyError ks env :
  Forall accepted_name ks →
  (∃ k, k ∈ ks ∧ env !! k = None) ∨ ¬ NoDup ks →
  ∃ k, k ∈ ks ∧ (del_keys ks env).1 = Err (KeyError k).
Proof.
  intros Hacc H. destruct (del_keys_fails ks env H) as (e & Hr & Hkey).
  destruct (Hkey Hacc) as (k & Hk & ->). by exists k.
Qed.

Lemma shared_key_not_NoDup secrets :
  shared_key secrets → ¬ NoDup (secret_env_keys secrets).
Proof.
  induction secrets as [|s0 secrets IH].
  - intros (i & j & si & sj & k & _ & Hi & _). by rewrite lookup_nil in Hi.
  - intros (i & j & si & sj & k & Hij & Hi & Hj & Hki & Hkj) Hnd.
    unfold secret_env_keys in Hnd. cbn [flat_map] in Hnd.
    apply NoDup_app in Hnd as (_ & Hdisj & Hnd).
    assert (Hin : ∀ n sn, secrets !! n = Some sn →
              k ∈ map kv_key (secret_keys sn) →
              k ∈ flat_map (λ secret, map kv_key (secret_keys secret)) secrets).
    { intros n sn Hn Hk. apply list_elem_of_In, in_flat_map.
      exists sn. split.
      - apply list_elem_of_In. by eapply list_elem_of_lookup_2.
      - by apply list_elem_of_In. }
    destruct i as [|i], j as [|j]; cbn in Hi, Hj.
    + done.
    + injection Hi as <-. eapply Hdisj; [exact Hki|]. by eapply Hin.
    + injection Hj as <-. eapply Hdisj; [exact Hkj|]. by eapply Hin.
    + apply IH; [|exact Hnd]. exists i, j, si, sj, k.
      repeat split; try done. congruence.
Qed.

(** ** The wrapper, path by path *)

Lemma is_log_not_call ev : Forall is_log ev → filter is_call ev = [].
Proof.
  induction 1 as [|e ev He _ IH]; [done|].
  destruct e; done.
Qed.

Section WrapperPaths.
Variable batch_get_secrets : Role → list string → Result (list Secret).

Lemma wrapper_try_no_secrets w role args kwargs s :
  truthy (w_secrets w) = false →
  wrapper_try batch_get_secrets w role args kwargs s =
  (let '(r, s1, evc) := invoke (w_key w) (w_func w) args kwargs s in
   (Ok ([], r), s1, EvLog INFO "Executing in subprocess" :: evc)).
Proof.
  intros Ht. unfold wrapper_try. rewrite Ht, run_log_bind, run_bind.
  unfold catch. destruct (invoke _ _ _ _ s) as [[r s1] evc]. cbn.
  by rewrite app_nil_r.
Qed.

Lemma wrapper_try_fetch_failed w role args kwargs s e :
  truthy (w_secrets w) = true →
  batch_get_secrets role (default [] (w_secrets w)) = Err e →
  wrapper_try batch_get_secrets w role args kwargs s =
  (Ok ([], Err e), s,
   [EvLog INFO "Executing in subprocess"; EvLog INFO "Pull secrets";
    EvLog DEBUG "Getting secrets {}";
    EvFetch role (default [] (w_secrets w))]).
Proof.
  intros Ht Hf. unfold wrapper_try. rewrite Ht, !run_log_bind, run_bind.
  unfold catch, _get_secrets. rewrite run_log_bind, run_bind. cbn [emit].
  unfold lift. rewrite Hf. reflexivity.
Qed.

Lemma wrapper_try_fetched w role args kwargs s secret_objs :
  truthy (w_secrets w) = true →
  batch_get_secrets role (default [] (w_secrets w)) = Ok secret_objs →
  ∃ evs, Forall is_log evs ∧
  wrapper_try batch_get_secrets w role args kwargs s =
  (let fetching :=
     [EvLog INFO "Executing in subprocess"; EvLog INFO "Pull secrets";
      EvLog DEBUG "Getting secrets {}";
      EvFetch role (default [] (w_secrets w))] in
   let '(rs, env1) := put_items (secret_env_items secret_objs) (environ s) in
   match rs with
   | Ok _ =>
       let '(r, s1, evc) :=
         invoke (w_key w) (w_func w) args kwargs
                (with_environ (λ _, env1) s) in
       (Ok (secret_objs, r), s1, fetching ++ evs ++ evc)
   | Err e =>
       (Ok (secret_objs, Err e), with_environ (λ _, env1) s, fetching ++ evs)
   end).
Proof.
  intros Ht Hf.
  destruct (_set_secrets_run secret_objs s) as (evs & Hset & Hevs).
  exists evs. split; [done|].
  unfold wrapper_try. rewrite Ht, !run_log_bind, run_bind.
  unfold catch at 1, _get_secrets. rewrite run_log_bind, run_bind. cbn [emit].
  unfold lift. rewrite Hf. cbn [app].
  rewrite run_bind. unfold catch. rewrite run_bind, Hset.
  destruct (put_items _ _) as [[[]|e] env1].
  - destruct (invoke _ _ _ _ _) as [[r s1] evc]. cbn.
    by rewrite app_nil_r.
  - cbn. by rewrite app_nil_r.
Qed.

(** The same when [putenv] takes every pair of the fetched records. *)
Lemma wrapper_try_set w role args kwargs s secret_objs :
  truthy (w_secrets w) = true →
  batch_get_secrets role (default [] (w_secrets w)) = Ok secret_objs →
  Forall accepted_item (secret_env_items secret_objs) →
  ∃ evs, Forall is_log evs ∧
  wrapper_try batch_get_secrets w role args kwargs s =
  (let '(r, s1, evc) :=
     invoke (w_key w) (w_func w) args kwargs
       (with_environ
          (λ _, set_items (secret_env_items secret_objs) (environ s)) s) in
   (Ok (secret_objs, r), s1,
    [EvLog INFO "Executing in subprocess"; EvLog INFO "Pull secrets";
     EvLog DEBUG "Getting secrets {}";
     EvFetch role (default [] (w_secrets w))] ++ evs ++ evc)).
Proof.
  intros Ht Hf Hacc.
  destruct (wrapper_try_fetched w role args kwargs s secret_objs Ht Hf)
    as (evs & Hevs & ->).
  exists evs. split; [done|]. by rewrite put_items_accepted.
Qed.

(** [except] and [finally] around the [try] block. *)
Lemma wrapper_run w args kwargs s role :
  default (VRole service_role) (kwargs !! "__role") = VRole role →
  wrapper batch_get_secrets w args kwargs s =
  match wrapper_try batch_get_secrets w role args (delete "__role" kwargs) s with
  | (Ok (secret_objs, outcome), s1, ev1) =>
      let '(ru, s2, ev2) := _unset_secrets secret_objs s1 in
      (match ru with Ok _ => outcome | Err e => Err e end, s2,
       ev1 ++
       match outcome with
       | Err e => if is_Exception e
                  then [EvLog ERROR "Error running integration {!r}: {!s}"]
                  else []
       | Ok _ => []
       end ++ EvLog INFO "Cleaning up after integration {!r}" :: ev2)
  | (Err e, s1, ev1) => (Err e, s1, ev1)
  end.
Proof.
  intros Hr. unfold wrapper, kwargs_pop. rewrite Hr.
  cbn [as_role]. rewrite run_bind. cbn [mret M_ret ret app].
  rewrite run_bind.
  destruct (wrapper_try _ _ _ _ _ s) as [[[[objs outcome]|e] s1] ev1];
    [|by rewrite ?app_nil_r].
  rewrite run_bind.
  destruct outcome as [v|e]; [|destruct (is_Exception e)];
    cbn [mret M_ret ret log emit app]; rewrite run_log_bind, run_bind;
    destruct (_unset_secrets objs s1) as [[[[]|eu] s2] ev2]; cbn;
    by rewrite ?app_nil_r.
Qed.

Lemma wrapper_not_a_role w args kwargs s :
  (∀ role, default (VRole service_role) (kwargs !! "__role") ≠ VRole role) →
  wrapper batch_get_secrets w args kwargs s =
  (Err (AttributeError "user_id"), s, []).
Proof.
  intros Hr. unfold wrapper, kwargs_pop.
  destruct (default _ _) as [| | | |role] eqn:E; try done.
  by destruct (Hr role).
Qed.

End WrapperPaths.

(** ** Apply, then revert *)

(** C1 (as amended).  When the injected names are pairwise distinct and
    [os.environ] takes every injected pair (no NUL in a name or a value, no
    equals sign in a name, no empty name), [_set_secrets] followed at once
    by [_unset_secrets] completes and leaves the environment as it was
    before the apply with every injected name removed.  The environment
    (names and values) is therefore identical to the one before the apply
    when none of the injected names was set before; a name that was set
    before is removed, not restored. *)
Theorem set_then_unset_secrets (secrets : list Secret) (s : Process) :
  NoDup (secret_env_keys secrets) →
  Forall accepted_item (secret_env_items secrets) →
  let run := (_set_secrets secrets;; _unset_secrets secrets) s in
  result_of run = Ok tt ∧
  state_of run =
    with_environ (λ env, foldr delete env (secret_env_keys secrets)) s ∧
  ((∀ k, k ∈ secret_env_keys secrets → environ s !! k = None) →
   state_of run = s) ∧
  (∀ k, k ∈ secret_env_keys secrets → environ (state_of run) !! k = None).
Proof.
  intros Hnd Hacc run.
  destruct (_set_secrets_accepted secrets s Hacc) as (ev1 & Hset & _).
  destruct (_unset_secrets_run secrets
    (with_environ (λ _, set_items (secret_env_items secrets) (environ s)) s))
    as (ev2 & Hunset & _).
  assert (Hrun : run =
    (Ok tt, with_environ (λ env, foldr delete env (secret_env_keys secrets)) s,
     ev1 ++ ev2)).
  { unfold run. rewrite run_bind, Hset, Hunset. cbn [environ with_environ].
    rewrite del_keys_ok; [|done|by apply items_accepted_keys|].
    - cbn. rewrite foldr_delete_set_items; [done|].
      intros k. by rewrite secret_env_items_keys.
    - intros k Hk. apply set_items_is_Some. right.
      by rewrite secret_env_items_keys. }
  rewrite Hrun. unfold result_of, state_of. cbn [fst snd]. repeat split.
  - intros Habsent.
    rewrite <- (with_environ_id s) at 2. unfold with_environ. f_equal.
    apply foldr_delete_id. by apply Forall_forall.
  - intros k Hk. cbn [environ with_environ]. by apply lookup_foldr_delete.
Qed.

(** C9 (as amended).  [_unset_secrets] deletes every name with no existence
    check: when some name of the records is not set at revert time, or
    occurs in more than one record, it raises.  The exception is [KeyError]
    when [os.environ] takes every name of the records (no NUL, no equals
    sign, not empty); otherwise it may be the exception of [unsetenv] for
    the first name it refuses.  In the [finally] block of the wrapper that
    exception is what the caller gets, whatever the call of the integration
    had returned or raised. *)
Theorem unset_secrets_KeyError
    (batch_get_secrets : Role → list string → Result (list Secret))
    (secrets : list Secret) (s : Process) :
  ((∃ k, k ∈ secret_env_keys secrets ∧ environ s !! k = None) ∨
   shared_key secrets →
   ∃ e, result_of (_unset_secrets secrets s) = Err e ∧
        (Forall accepted_name (secret_env_keys secrets) →
         ∃ k, k ∈ secret_env_keys secrets ∧ e = KeyError k)) ∧
  (∀ w args kwargs role,
     truthy (w_secrets w) = true →
     default (VRole service_role) (kwargs !! "__role") = VRole role →
     batch_get_secrets role (default [] (w_secrets w)) = Ok secrets →
     shared_key secrets →
     ∃ e, result_of (wrapper batch_get_secrets w args kwargs s) = Err e ∧
          (Forall accepted_item (secret_env_items secrets) →
           ∃ k, k ∈ secret_env_keys secrets ∧ e = KeyError k)).
Proof.
  assert (Hdel : ∀ s',
    (∃ k, k ∈ secret_env_keys secrets ∧ environ s' !! k = None) ∨
    shared_key secrets →
    ∃ e, result_of (_unset_secrets secrets s') = Err e ∧
         (Forall accepted_name (secret_env_keys secrets) →
          ∃ k, k ∈ secret_env_keys secrets ∧ e = KeyError k)).
  { intros s' H.
    destruct (_unset_secrets_run secrets s') as (ev & Hrun & _).
    destruct (del_keys_fails (secret_env_keys secrets) (environ s'))
      as (e & Hr & Hkey).
    { destruct H as [?|?%shared_key_not_NoDup]; auto. }
    exists e. split; [|done]. rewrite Hrun.
    by destruct (del_keys _ _) as [r env]; cbn in *; subst r. }
  split; [apply Hdel|].
  intros w args kwargs role Ht Hrole Hfetch Hshared.
  rewrite (wrapper_run _ _ _ _ _ role Hrole).
  destruct (wrapper_try_fetched batch_get_secrets w role args
              (delete "__role" kwargs) s secrets Ht Hfetch)
    as (evs & _ & ->).
  cbn zeta. destruct (put_items _ _) as [[[]|e0] env1].
  - destruct (invoke _ _ _ _ _) as [[outcome s1] evc].
    destruct (Hdel s1 (or_intror Hshared)) as (e & Hr & Hkey).
    exists e. split.
    + destruct (_unset_secrets secrets s1) as [[ru s2] ev2]. cbn in *.
      by subst ru.
    + intros Hacc. by apply Hkey, items_accepted_keys.
  - destruct (Hdel (with_environ (λ _, env1) s) (or_intror Hshared))
      as (e & Hr & Hkey).
    exists e. split.
    + destruct (_unset_secrets secrets _) as [[ru s2] ev2]. cbn in *.
      by subst ru.
    + intros Hacc. by apply Hkey, items_accepted_keys.
Qed.

(** ** The wrapper *)

(** C5.  An integration registered with secret names whose fetch fails: the
    failure reaches the caller, the body is not called, and the process (the
    environment in particular) is exactly as before the invocation. *)
Theorem wrapper_fetch_failure
    (batch_get_secrets : Role → list string → Result (list Secret))
    (w : Wrapper) (args : list PyVal) (kwargs : gmap string PyVal)
    (s : Process) (role : Role) (e : Exn) :
  truthy (w_secrets w) = true →
  default (VRole service_role) (kwargs !! "__role") = VRole role →
  batch_get_secrets role (default [] (w_secrets w)) = Err e →
  let run := wrapper batch_get_secrets w args kwargs s in
  result_of run = Err e ∧
  filter is_call (events_of run) = [] ∧
  state_of run = s ∧
  environ (state_of run) = environ s ∧
  EvFetch role (default [] (w_secrets w)) ∈ events_of run.
Proof.
  intros Ht Hrole Hfetch run. unfold run.
  rewrite (wrapper_run _ _ _ _ _ role Hrole).
  rewrite (wrapper_try_fetch_failed _ _ _ _ _ _ e Ht Hfetch).
  cbn. destruct (is_Exception e); cbn; repeat split;
    rewrite ?with_environ_id; try done; set_solver.
Qed.

Lemma is_log_wrapper_event w role args kwargs ev :
  Forall is_log ev → Forall (wrapper_event w role args kwargs) ev.
Proof. intros H. eapply Forall_impl; [exact H|]. by intros []. Qed.

Lemma invoke_events key func args kwargs s :
  events_of (invoke key func args kwargs s) =
  if callable func then [EvCall key args kwargs] else [].
Proof.
  unfold invoke. destruct (callable func); [|done].
  by destruct (call func args kwargs (environ s)).
Qed.

(** The loop of [_set_secrets] stops with an exception as soon as
    [putenv] refuses a pair. *)
Lemma put_items_refused items env :
  ¬ Forall accepted_item items → ∃ e, (put_items items env).1 = Err e.
Proof.
  revert env. induction items as [|[k v] items IH]; intros env Hnot.
  - destruct Hnot. constructor.
  - cbn. destruct (putenv_error k v) as [e|] eqn:E; [by exists e|].
    apply IH. intros Hacc. apply Hnot. by constructor.
Qed.

Lemma invoke_run key func args kwargs s :
  callable func = true →
  invoke key func args kwargs s =
  ((call func args kwargs (environ s)).1,
   with_environ (λ _, (call func args kwargs (environ s)).2) s,
   [EvCall key args kwargs]).
Proof.
  intros Hc. unfold invoke. rewrite Hc.
  by destruct (call func args kwargs (environ s)).
Qed.

(** Everything a run of the wrapper leaves behind is a log line, the fetch
    for the resolved role, or a call of the body with the forwarded
    arguments. *)
Lemma wrapper_events batch_get_secrets w args kwargs s role :
  default (VRole service_role) (kwargs !! "__role") = VRole role →
  Forall (wrapper_event w role args kwargs)
         (events_of (wrapper batch_get_secrets w args kwargs s)).
Proof.
  intros Hrole. rewrite (wrapper_run _ _ _ _ _ role Hrole).
  assert (Hcall : ∀ s', Forall (wrapper_event w role args kwargs)
            (events_of (invoke (w_key w) (w_func w) args
                               (delete "__role" kwargs) s'))).
  { intros s'. rewrite invoke_events.
    destruct (callable _); repeat constructor. }
  assert (Hexc : ∀ outcome : Result PyVal,
    Forall (wrapper_event w role args kwargs)
      match outcome with
      | Err e => if is_Exception e
                 then [EvLog ERROR "Error running integration {!r}: {!s}"]
                 else []
      | Ok _ => []
      end).
  { intros [v|e]; [|destruct (is_Exception e)]; repeat constructor. }
  destruct (truthy (w_secrets w)) eqn:Ht.
  - destruct (batch_get_secrets role (default [] (w_secrets w)))
      as [objs|e] eqn:Hf.
    + destruct (wrapper_try_fetched _ _ _ args (delete "__role" kwargs) s _ Ht Hf)
        as (evs & Hevs & ->).
      cbn zeta. destruct (put_items _ _) as [[[]|e0] env1].
      * specialize (Hcall (with_environ (λ _, env1) s)).
        destruct (invoke _ _ _ _ _) as [[outcome s1] evc].
        destruct (_unset_secrets_run objs s1) as (ev2 & -> & Hev2).
        destruct (del_keys _ _) as [ru env2]. unfold events_of. cbn [snd].
        repeat (apply Forall_app; split); try apply Hexc; try done;
          repeat constructor; try done; by apply is_log_wrapper_event.
      * destruct (_unset_secrets_run objs (with_environ (λ _, env1) s))
          as (ev2 & -> & Hev2).
        destruct (del_keys _ _) as [ru env2]. unfold events_of. cbn [snd].
        apply Forall_app; split.
        { apply Forall_app; split; [by repeat constructor|].
          by apply is_log_wrapper_event. }
        apply Forall_app; split; [apply (Hexc (Err e0))|].
        constructor; [done|by apply is_log_wrapper_event].
    + rewrite (wrapper_try_fetch_failed _ _ _ _ _ _ e Ht Hf). cbn.
      destruct (is_Exception e); repeat constructor; done.
  - rewrite wrapper_try_no_secrets by done.
    specialize (Hcall s).
    destruct (invoke _ _ _ _ _) as [[outcome s1] evc]. cbn.
    constructor; [done|].
    repeat (apply Forall_app; split); try apply Hexc; try done.
    repeat constructor.
Qed.

Lemma filter_error_line (P : Event → bool) (outcome : Result PyVal) :
  P (EvLog ERROR "Error running integration {!r}: {!s}") = false →
  filter P
    match outcome with
    | Err e => if is_Exception e
               then [EvLog ERROR "Error running integration {!r}: {!s}"]
               else []
    | Ok _ => []
    end = [].
Proof.
  intros HP. destruct outcome as [v|e]; [done|].
  destruct (is_Exception e); [|done].
  rewrite filter_cons_False; [done|]. rewrite HP. intros [].
Qed.

(** C8.  The ["__role"] keyword is taken out of [kwargs] by the wrapper: it
    is the role the secrets are fetched for and it is not among the keyword
    arguments of any call of the body; the positional arguments and every
    other keyword argument reach the body unchanged.  When the wrapper gets
    as far as the call (a role, and no secrets or fetched secrets that
    [os.environ] takes), the callable is applied exactly once, to the
    positional arguments and to the keyword arguments less ["__role"]: what
    it returns or raises on them is what the wrapper returns or raises,
    unless the cleanup raises, and the environment it leaves is the one the
    cleanup starts from.  When [os.environ] refuses a fetched secret the
    callable is not called. *)
Theorem wrapper_forwards_arguments
    (batch_get_secrets : Role → list string → Result (list Secret))
    (w : Wrapper) (args : list PyVal) (kwargs : gmap string PyVal)
    (s : Process) :
  let run := wrapper batch_get_secrets w args kwargs s in
  let forwarded := delete "__role" kwargs in
  (forwarded !! "__role" = None ∧
   ∀ k, k ≠ "__role" → forwarded !! k = kwargs !! k) ∧
  (∀ key a kw, EvCall key a kw ∈ events_of run →
     key = w_key w ∧ a = args ∧ kw = forwarded) ∧
  (∀ role names, EvFetch role names ∈ events_of run →
     default (VRole service_role) (kwargs !! "__role") = VRole role) ∧
  (∀ role,
     default (VRole service_role) (kwargs !! "__role") = VRole role →
     callable (w_func w) = true →
     truthy (w_secrets w) = false →
     let body := call (w_func w) args forwarded (environ s) in
     filter is_call (events_of run) = [EvCall (w_key w) args forwarded] ∧
     result_of run = body.1 ∧
     environ (state_of run) = body.2) ∧
  (∀ role objs,
     default (VRole service_role) (kwargs !! "__role") = VRole role →
     callable (w_func w) = true →
     truthy (w_secrets w) = true →
     batch_get_secrets role (default [] (w_secrets w)) = Ok objs →
     Forall accepted_item (secret_env_items objs) →
     let body := call (w_func w) args forwarded
                   (set_items (secret_env_items objs) (environ s)) in
     let cleanup := del_keys (secret_env_keys objs) body.2 in
     filter is_call (events_of run) = [EvCall (w_key w) args forwarded] ∧
     result_of run = match cleanup.1 with Ok _ => body.1 | Err e => Err e end ∧
     environ (state_of run) = cleanup.2) ∧
  (∀ role objs,
     default (VRole service_role) (kwargs !! "__role") = VRole role →
     truthy (w_secrets w) = true →
     batch_get_secrets role (default [] (w_secrets w)) = Ok objs →
     ¬ Forall accepted_item (secret_env_items objs) →
     filter is_call (events_of run) = []).
Proof.
  intros run forwarded. split; [|split; [|split; [|split; [|split]]]].
  - split; [apply lookup_delete_eq|].
    intros k Hk. by apply lookup_delete_ne.
  - intros key a kw Hin.
    destruct (default (VRole service_role) (kwargs !! "__role"))
      as [| | | |role] eqn:Hrole;
      try (unfold run in Hin; rewrite wrapper_not_a_role in Hin;
           [by apply elem_of_nil in Hin|by rewrite Hrole]).
    pose proof (wrapper_events batch_get_secrets w args kwargs s role Hrole)
      as Hall.
    rewrite Forall_forall in Hall. exact (Hall _ Hin).
  - intros role names Hin.
    destruct (default (VRole service_role) (kwargs !! "__role"))
      as [| | | |role'] eqn:Hrole;
      try (unfold run in Hin; rewrite wrapper_not_a_role in Hin;
           [by apply elem_of_nil in Hin|by rewrite Hrole]).
    pose proof (wrapper_events batch_get_secrets w args kwargs s role' Hrole)
      as Hall.
    rewrite Forall_forall in Hall. destruct (Hall _ Hin) as [-> _]. done.
  - intros role Hrole Hcallable Ht body. subst run body forwarded.
    rewrite (wrapper_run _ _ _ _ _ role Hrole).
    rewrite wrapper_try_no_secrets by done.
    rewrite (invoke_run _ _ _ _ _ Hcallable).
    unfold _unset_secrets. cbn [for_each mret M_ret ret].
    unfold result_of, state_of, events_of.
    cbn [fst snd environ with_environ].
    split; [|done].
    change (EvLog INFO "Executing in subprocess"
            :: [EvCall (w_key w) args (delete "__role" kwargs)])
      with ([EvLog INFO "Executing in subprocess"]
            ++ [EvCall (w_key w) args (delete "__role" kwargs)]).
    by rewrite !filter_app, filter_error_line.
  - intros role objs Hrole Hcallable Ht Hf Hacc body cleanup.
    subst run body cleanup forwarded.
    rewrite (wrapper_run _ _ _ _ _ role Hrole).
    destruct (wrapper_try_set _ _ _ args (delete "__role" kwargs) s _ Ht Hf Hacc)
      as (evs & Hevs & ->).
    rewrite (invoke_run _ _ _ _ _ Hcallable).
    cbn [environ with_environ].
    set (body := call (w_func w) args (delete "__role" kwargs)
                   (set_items (secret_env_items objs) (environ s))).
    destruct (_unset_secrets_run objs
      (with_environ (λ _, body.2)
         (with_environ (λ _, set_items (secret_env_items objs) (environ s)) s)))
      as (ev2 & -> & Hev2).
    cbn [environ with_environ].
    destruct (del_keys (secret_env_keys objs) body.2) as [ru env2].
    unfold result_of, state_of, events_of.
    cbn [fst snd environ with_environ].
    split; [|by destruct ru].
    rewrite !filter_app, filter_error_line by done.
    rewrite (is_log_not_call evs Hevs).
    rewrite (filter_cons_False _ (EvLog INFO "Cleaning up after integration {!r}"))
      by (cbn; tauto).
    by rewrite (is_log_not_call ev2 Hev2).
  - intros role objs Hrole Ht Hf Hnot. subst run forwarded.
    rewrite (wrapper_run _ _ _ _ _ role Hrole).
    destruct (wrapper_try_fetched _ _ _ args (delete "__role" kwargs) s _ Ht Hf)
      as (evs & Hevs & ->).
    cbn zeta.
    destruct (put_items_refused _ (environ s) Hnot) as [e0 He0].
    destruct (put_items _ _) as [rs env1]. cbn [fst] in He0. subst rs.
    destruct (_unset_secrets_run objs (with_environ (λ _, env1) s))
      as (ev2 & -> & Hev2).
    destruct (del_keys _ _) as [ru env2].
    unfold events_of. cbn [snd].
    rewrite !filter_app, (filter_error_line _ (Err e0)) by done.
    rewrite (is_log_not_call evs Hevs).
    rewrite (filter_cons_False _ (EvLog INFO "Cleaning up after integration {!r}"))
      by (cbn; tauto).
    by rewrite (is_log_not_call ev2 Hev2).
Qed.

(** ** Dictionaries *)

Section DictFacts.
Context {V : Type}.
Implicit Types (d : PyDict.t V) (k : string) (v : V).

Lemma contains_keys k d : PyDict.contains k d = true ↔ k ∈ PyDict.keys d.
Proof.
  unfold PyDict.contains, PyDict.keys.
  induction d as [|[k' v'] d IH]; cbn.
  - split; [done|]. by intros ?%elem_of_nil.
  - destruct (decide (k = k')) as [->|Hne].
    + split; [|done]. intros _. left.
    + rewrite IH. split; [by right|].
      by intros [?|?]%elem_of_cons.
Qed.

Lemma not_contains_keys k d : PyDict.contains k d = false ↔ k ∉ PyDict.keys d.
Proof.
  rewrite <- contains_keys. by destruct (PyDict.contains k d).
Qed.

Lemma get_set_eq k v d : PyDict.get k (PyDict.set k v d) = Some v.
Proof.
  induction d as [|[k' v'] d IH]; cbn.
  - by rewrite decide_True.
  - destruct (decide (k = k')) as [->|Hne]; cbn.
    + by rewrite decide_True.
    + by rewrite decide_False.
Qed.

Lemma get_set_ne k k' v d :
  k ≠ k' → PyDict.get k (PyDict.set k' v d) = PyDict.get k d.
Proof.
  intros Hne. induction d as [|[k0 v0] d IH]; cbn.
  - by rewrite decide_False.
  - destruct (decide (k' = k0)) as [->|Hne0]; cbn.
    + by rewrite !decide_False.
    + destruct (decide (k = k0)); [done|apply IH].
Qed.

(** Assigning to a new key appends it. *)
Lemma set_fresh k v d :
  PyDict.contains k d = false → PyDict.set k v d = d ++ [(k, v)].
Proof.
  unfold PyDict.contains.
  induction d as [|[k' v'] d IH]; cbn; [done|].
  destruct (decide (k = k')); [done|]. intros H. by rewrite IH.
Qed.

Lemma keys_set_fresh k v d :
  PyDict.contains k d = false →
  PyDict.keys (PyDict.set k v d) = PyDict.keys d ++ [k].
Proof.
  intros H. rewrite set_fresh by done. unfold PyDict.keys. by rewrite map_app.
Qed.

Lemma contains_set k k' v d :
  PyDict.contains k (PyDict.set k' v d) =
  if decide (k = k') then true else PyDict.contains k d.
Proof.
  unfold PyDict.contains. destruct (decide (k = k')) as [->|Hne].
  - by rewrite get_set_eq.
  - by rewrite get_set_ne.
Qed.
End DictFacts.

(** ** The decorator, path by path *)

Section RegistrationPaths.

Variable validate_type_constraints : PyObj → Result unit.
Variable get_integration_platform : PyObj → Result string.
Variable get_integration_key : PyObj → Result string.
Variable param_to_spec : string → InspectParameter → Result ParameterSpec.

(** [_create_spec] reads the callable and nothing else. *)
Lemma _create_spec_run func description s :
  _create_spec get_integration_platform param_to_spec func description s =
  (result_of (_create_spec get_integration_platform param_to_spec
                func description s), s, []).
Proof.
  unfold _create_spec.
  rewrite !run_bind. unfold result_of, lift.
  destruct (signature func) as [params|e]; [|done]. cbn [app].
  rewrite !run_bind.
  destruct (map_result _ params) as [param_list|e]; [|done]. cbn [app].
  rewrite !run_bind.
  destruct (get_integration_platform func) as [platform|e]; [|done].
  cbn [app]. rewrite !run_bind.
  by destruct (__name__ func).
Qed.

Lemma _create_spec_state_independent func description s s' :
  result_of (_create_spec get_integration_platform param_to_spec
               func description s) =
  result_of (_create_spec get_integration_platform param_to_spec
               func description s').
Proof.
  unfold _create_spec.
  rewrite !run_bind. unfold result_of, lift.
  destruct (signature func) as [params|e]; [|done]. cbn [app].
  rewrite !run_bind.
  destruct (map_result _ params) as [param_list|e]; [|done]. cbn [app].
  rewrite !run_bind.
  destruct (get_integration_platform func) as [platform|e]; [|done].
  cbn [app]. rewrite !run_bind.
  by destruct (__name__ func).
Qed.

(** Every path through [decorator_register], in the order of the code. *)
Lemma decorator_register_run description secrets integration_kwargs func s :
  decorator_register validate_type_constraints get_integration_platform
    get_integration_key param_to_spec
    description secrets integration_kwargs func s =
  match __name__ func with
  | None => (Err (AttributeError "__name__"), s, [])
  | Some _ =>
    let registering := [EvLog INFO "Registering integration"] in
    match validate_type_constraints func with
    | Err e => (Err e, s, registering)
    | Ok _ =>
      match get_integration_platform func with
      | Err e => (Err e, s, registering)
      | Ok platform =>
        match get_integration_key func with
        | Err e => (Err e, s, registering)
        | Ok key =>
          let wrapper :=
            {| w_func := func; w_key := key; w_secrets := secrets |} in
          if PyDict.contains key (_integrations s) then
            (Err (DuplicateRegistration key), s, registering)
          else if negb (callable func) then
            (Err InvalidIntegration, s, registering)
          else
            let s1 := with_integrations (PyDict.set key wrapper) s in
            match __annotations__ func with
            | None => (Err (AttributeError "__annotations__"), s1, registering)
            | Some annotations =>
              match result_of (_create_spec get_integration_platform
                                 param_to_spec func description s1) with
              | Err e => (Err e, s1, registering)
              | Ok specification =>
                  (Ok wrapper,
                   with_metadata (PyDict.set key
                     (metadata_record platform description
                        (default "None" (annotations !! "return"))
                        specification integration_kwargs)) s1,
                   registering)
              end
            end
        end
      end
    end
  end.
Proof.
  unfold decorator_register. rewrite run_bind.
  destruct (__name__ func) as [name|]; [|done].
  cbn [getattr mret M_ret ret app]. rewrite run_log_bind, run_bind.
  unfold lift at 1.
  destruct (validate_type_constraints func) as [[]|e]; [|done].
  cbn [app]. rewrite run_bind. unfold lift at 1.
  destruct (get_integration_platform func) as [platform|e]; [|done].
  cbn [app]. rewrite run_bind. unfold lift at 1.
  destruct (get_integration_key func) as [key|e]; [|done].
  cbn [app]. rewrite run_bind. cbn [get_state app].
  destruct (PyDict.contains key (_integrations s)); [done|].
  destruct (callable func); [|done]. cbn [negb].
  rewrite run_bind. cbn [modify app]. rewrite run_bind.
  destruct (__annotations__ func) as [annotations|]; [|done].
  cbn [getattr mret M_ret ret app]. rewrite run_bind.
  rewrite _create_spec_run.
  by destruct (result_of _) as [specification|e].
Qed.

(** One use of the decorator: the binding of [register], then the
    decorator. *)
Lemma attempt_run a s :
  attempt validate_type_constraints get_integration_platform
    get_integration_key param_to_spec a s =
  match bound_twice (a_kwargs a) with
  | Some name => (Err (MultipleValues name), s, [])
  | None =>
      decorator_register validate_type_constraints get_integration_platform
        get_integration_key param_to_spec
        (a_description a) (a_secrets a) (a_kwargs a) (a_func a) s
  end.
Proof. unfold attempt, register. by destruct (bound_twice _). Qed.

End RegistrationPaths.

(** ** Registration *)

Lemma metadata_record_specification platform description return_type
    specification integration_kwargs :
  metadata_record platform description return_type specification
    integration_kwargs !! "specification" =
  Some (stored_specification specification integration_kwargs).
Proof.
  unfold metadata_record, stored_specification.
  rewrite lookup_union, lookup_fmap.
  destruct (integration_kwargs !! "specification") as [v|]; cbn.
  - by destruct (_ !! "specification").
  - rewrite !lookup_insert_ne by done. by rewrite lookup_insert_eq.
Qed.

Section RegistrationProperties.

Variable validate_type_constraints : PyObj → Result unit.
Variable get_integration_platform : PyObj → Result string.
Variable get_integration_key : PyObj → Result string.
Variable param_to_spec : string → InspectParameter → Result ParameterSpec.

#[local] Abbreviation decorator_register :=
  (decorator_register validate_type_constraints get_integration_platform
     get_integration_key param_to_spec).

(** C2 (as amended).  The decorator checks, in this order: the signature
    (validation), the key (duplicate), the object (callable).  So for an
    object with a name: a failing validation is what the caller gets,
    whatever the key; past validation and key derivation, a key that is
    already present gives the duplicate-registration error, callable or
    not; and only then does a non-callable give the not-callable error.
    None of the three stores anything. *)
Theorem register_check_order description secrets integration_kwargs func s
    name :
  __name__ func = Some name →
  let run := decorator_register description secrets integration_kwargs func s in
  (∀ e, validate_type_constraints func = Err e →
     result_of run = Err e ∧ state_of run = s) ∧
  (∀ platform key,
     validate_type_constraints func = Ok tt →
     get_integration_platform func = Ok platform →
     get_integration_key func = Ok key →
     PyDict.contains key (_integrations s) = true →
     result_of run = Err (DuplicateRegistration key) ∧ state_of run = s) ∧
  (∀ platform key,
     validate_type_constraints func = Ok tt →
     get_integration_platform func = Ok platform →
     get_integration_key func = Ok key →
     PyDict.contains key (_integrations s) = false →
     callable func = false →
     result_of run = Err InvalidIntegration ∧ state_of run = s).
Proof.
  intros Hname run. unfold run. rewrite decorator_register_run, Hname.
  split; [|split].
  - by intros e ->.
  - intros platform key -> -> -> Hin. cbn. by rewrite Hin.
  - intros platform key -> -> -> Hin Hcallable. cbn.
    by rewrite Hin, Hcallable.
Qed.

(** C4 (as amended).  A registration under a key that is already present
    fails and leaves the process as it was: the first entry's wrapper and
    metadata record are the same afterwards.  The error is the
    duplicate-registration error when the attempt gets as far as that
    check (a name, a signature that passes validation, a platform);
    otherwise it is the error of the step that failed before it: the
    missing [__name__], the validation, or the platform. *)
Theorem register_duplicate_keeps_entry description secrets integration_kwargs
    func s key :
  get_integration_key func = Ok key →
  PyDict.contains key (_integrations s) = true →
  let run := decorator_register description secrets integration_kwargs func s in
  result_of run =
    Err match __name__ func with
        | None => AttributeError "__name__"
        | Some _ =>
            match validate_type_constraints func with
            | Err e => e
            | Ok _ =>
                match get_integration_platform func with
                | Err e => e
                | Ok _ => DuplicateRegistration key
                end
            end
        end ∧
  state_of run = s ∧
  PyDict.get key (_integrations (state_of run)) =
    PyDict.get key (_integrations s) ∧
  PyDict.get key (_metadata (state_of run)) = PyDict.get key (_metadata s) ∧
  (is_Some (__name__ func) →
   validate_type_constraints func = Ok tt →
   (∃ platform, get_integration_platform func = Ok platform) →
   result_of run = Err (DuplicateRegistration key)).
Proof.
  intros Hkey Hin run.
  assert (Hrun :
    result_of run =
      Err match __name__ func with
          | None => AttributeError "__name__"
          | Some _ =>
              match validate_type_constraints func with
              | Err e => e
              | Ok _ =>
                  match get_integration_platform func with
                  | Err e => e
                  | Ok _ => DuplicateRegistration key
                  end
              end
          end ∧ state_of run = s).
  { unfold run. rewrite decorator_register_run, Hkey.
    destruct (__name__ func) as [name|]; [|done].
    destruct (validate_type_constraints func) as [[]|e]; [|done].
    destruct (get_integration_platform func) as [platform|e]; [|done].
    cbn. by rewrite Hin. }
  destruct Hrun as (Herr & Hstate).
  rewrite Hstate. split; [done|]. split; [done|]. split; [done|].
  split; [done|].
  intros [name Hname] Hvalid [platform Hplatform].
  by rewrite Herr, Hname, Hvalid, Hplatform.
Qed.

(** A non-callable is never registered, and its registration stores
    nothing. *)
Lemma register_non_callable_fails description secrets integration_kwargs
    func s :
  callable func = false →
  let run := decorator_register description secrets integration_kwargs func s in
  (∃ e, result_of run = Err e) ∧ state_of run = s.
Proof.
  intros Hcallable run. unfold run. rewrite decorator_register_run.
  destruct (__name__ func) as [name|]; [|by split; [eexists|]].
  destruct (validate_type_constraints func) as [[]|e];
    [|by split; [eexists|]].
  destruct (get_integration_platform func) as [platform|e];
    [|by split; [eexists|]].
  destruct (get_integration_key func) as [key|e];
    [|by split; [eexists|]].
  cbn. rewrite Hcallable.
  destruct (PyDict.contains key (_integrations s)); by split; [eexists|].
Qed.

(** C3.  At the integer [42] the decorator raises [AttributeError] on
    [func.__name__], its first statement, not the not-callable error of its
    own check further down.  What does hold for every non-callable: the
    registration fails and stores nothing, and the error is the
    not-callable one when the attempt gets as far as that check. *)
Theorem register_non_callable description secrets integration_kwargs s :
  decorator_register description secrets integration_kwargs Demo.forty_two s =
    (Err (AttributeError "__name__"), s, []) ∧
  (∀ func, callable func = false →
     let run := decorator_register description secrets integration_kwargs
                  func s in
     (∃ e, result_of run = Err e) ∧ state_of run = s ∧
     (∀ platform key,
        is_Some (__name__ func) →
        validate_type_constraints func = Ok tt →
        get_integration_platform func = Ok platform →
        get_integration_key func = Ok key →
        PyDict.contains key (_integrations s) = false →
        result_of run = Err InvalidIntegration)).
Proof.
  split; [by rewrite decorator_register_run|].
  intros func Hcallable run.
  destruct (register_non_callable_fails description secrets
              integration_kwargs func s Hcallable) as [Herr Hstate].
  repeat split; [done..|].
  intros platform key [name Hname] Hv Hp Hk Hin. unfold run.
  rewrite decorator_register_run, Hname, Hv, Hp, Hk. cbn.
  by rewrite Hin, Hcallable.
Qed.

(** C10.  The wrapper is stored before the metadata record is built, and
    building the record can raise: for a callable without
    [__annotations__] the attempt fails with [AttributeError] and the key
    is left in [_integrations] only. *)
Theorem register_not_atomic description secrets integration_kwargs func s
    name platform key :
  __name__ func = Some name →
  validate_type_constraints func = Ok tt →
  get_integration_platform func = Ok platform →
  get_integration_key func = Ok key →
  PyDict.contains key (_integrations s) = false →
  PyDict.contains key (_metadata s) = false →
  callable func = true →
  __annotations__ func = None →
  let run := decorator_register description secrets integration_kwargs func s in
  result_of run = Err (AttributeError "__annotations__") ∧
  PyDict.contains key (_integrations (state_of run)) = true ∧
  PyDict.contains key (_metadata (state_of run)) = false ∧
  ¬ registry_consistent (state_of run).
Proof.
  intros Hname Hv Hp Hk Hin Hmd Hcallable Hann run.
  assert (Hrun : run =
    (Err (AttributeError "__annotations__"),
     with_integrations (PyDict.set key
       {| w_func := func; w_key := key; w_secrets := secrets |}) s,
     [EvLog INFO "Registering integration"])).
  { unfold run. rewrite decorator_register_run, Hname, Hv, Hp, Hk. cbn.
    by rewrite Hin, Hcallable, Hann. }
  rewrite Hrun. unfold result_of, state_of. cbn [fst snd].
  assert (Hnow : PyDict.contains key (_integrations (with_integrations
            (PyDict.set key
               {| w_func := func; w_key := key; w_secrets := secrets |}) s))
          = true).
  { cbn. by rewrite contains_set, decide_True. }
  repeat split; [done..|].
  intros Hcons. destruct (Hcons key) as [Heq _].
  rewrite Hnow in Heq. cbn in Heq. congruence.
Qed.

End RegistrationProperties.

(** ** The export of the specifications *)

Section ExportOrder.

Variable validate_type_constraints : PyObj → Result unit.
Variable get_integration_platform : PyObj → Result string.
Variable get_integration_key : PyObj → Result string.
Variable param_to_spec : string → InspectParameter → Result ParameterSpec.

#[local] Abbreviation attempts :=
  (attempts validate_type_constraints get_integration_platform
     get_integration_key param_to_spec).
#[local] Abbreviation settled :=
  (settled validate_type_constraints get_integration_platform
     get_integration_key param_to_spec).
#[local] Abbreviation registered :=
  (registered validate_type_constraints get_integration_platform
     get_integration_key param_to_spec).

Lemma holds_fresh env : holds (fresh env) [].
Proof.
  repeat split; [constructor|]. by intros k v ?%elem_of_nil.
Qed.

(** An attempt that is rejected changes nothing; one that succeeds appends
    its key and its specification. *)
Lemma attempt_holds a s reg :
  holds s reg →
  accepted validate_type_constraints get_integration_platform
    get_integration_key param_to_spec a s ∨
  rejected validate_type_constraints get_integration_platform
    get_integration_key param_to_spec a s →
  holds
    (state_of (attempt validate_type_constraints get_integration_platform
                 get_integration_key param_to_spec a s))
    (reg ++ registered_by validate_type_constraints get_integration_platform
              get_integration_key param_to_spec a s).
Proof.
  intros (Hkeys & Hmeta & Hnd & Hspec) [[w Hok]|(e & Herr & Hsame)].
  2:{ unfold registered_by. rewrite Herr, Hsame, app_nil_r. done. }
  unfold registered_by. rewrite Hok. revert Hok.
  rewrite attempt_run. destruct (bound_twice (a_kwargs a)); [done|].
  rewrite decorator_register_run.
  destruct (__name__ (a_func a)) as [name|]; [|done].
  destruct (validate_type_constraints (a_func a)) as [[]|?]; [|done].
  destruct (get_integration_platform (a_func a)) as [platform|?] eqn:Hp;
    [|done].
  destruct (get_integration_key (a_func a)) as [key|?]; [|done].
  cbn zeta.
  destruct (PyDict.contains key (_integrations s)) eqn:Hin; [done|].
  destruct (callable (a_func a)); [|done]. cbn [negb].
  destruct (__annotations__ (a_func a)) as [annotations|]; [|done].
  rewrite (_create_spec_state_independent _ _ _ _ _ s).
  destruct (result_of (_create_spec _ _ _ _ s)) as [specification|?]; [|done].
  unfold result_of, state_of. cbn [fst snd]. intros [= <-]. cbn [w_key].
  assert (Hfresh : key ∉ map fst reg).
  { rewrite <- Hkeys. by apply not_contains_keys. }
  assert (Hmd : PyDict.contains key (_metadata s) = false).
  { apply not_contains_keys. by rewrite Hmeta. }
  repeat split.
  - cbn [_integrations with_metadata with_integrations].
    rewrite keys_set_fresh by done. by rewrite Hkeys, map_app.
  - cbn [_metadata with_metadata with_integrations].
    rewrite keys_set_fresh by done. by rewrite Hmeta, map_app.
  - rewrite map_app. apply NoDup_app. repeat split; [done| |apply NoDup_singleton].
    intros k Hk [->|[]%elem_of_nil]%elem_of_cons. done.
  - intros k v [Hold|[= -> ->]%list_elem_of_singleton]%elem_of_app.
    + assert (k ≠ key).
      { intros ->. apply Hfresh. apply list_elem_of_fmap. by exists (key, v). }
      unfold specification_of. cbn. rewrite get_set_ne by done.
      by apply Hspec.
    + unfold specification_of. cbn. rewrite get_set_eq.
      by rewrite metadata_record_specification.
Qed.

Lemma attempts_hold l s reg :
  holds s reg → settled l s →
  holds (attempts l s) (reg ++ registered l s).
Proof.
  revert s reg. induction l as [|a l IH]; intros s reg Hholds Hsettled.
  - cbn. by rewrite app_nil_r.
  - destruct Hsettled as [Hstep Hsettled]. cbn.
    rewrite app_assoc. apply IH; [|done]. by apply attempt_holds.
Qed.

Lemma holds_export s reg :
  holds s reg →
  result_of (get_registered_integration_specs s) = Ok (map snd reg) ∧
  result_of (list_integrations s) = Ok (map fst reg).
Proof.
  intros (Hkeys & _ & _ & Hspec). split.
  - unfold get_registered_integration_specs. rewrite run_bind. cbn.
    rewrite Hkeys. clear Hkeys.
    induction reg as [|[k v] reg IH]; [done|].
    cbn. rewrite (Hspec k v) by left.
    unfold lift, result_of in IH. cbn in IH.
    destruct (map_result _ (map fst reg)) as [vs|e] eqn:E.
    + f_equal. f_equal.
      assert (Ok vs = Ok (map snd reg)) as [= ->]; [|done].
      apply IH. intros k' v' Hin. apply Hspec. by right.
    + assert (@Err (list MetaVal) e = Ok (map snd reg)); [|done].
      apply IH. intros k' v' Hin. apply Hspec. by right.
  - unfold list_integrations. rewrite run_bind. cbn. by rewrite Hkeys.
Qed.

(** C7 (as amended).  After any sequence of attempts each of which either
    succeeded or was rejected with nothing stored, starting from the
    registry as created at import time,
    [get_registered_integration_specs] returns one entry for each key that
    was successfully registered, in the order of registration:
    the specification stored for that key.  [list_integrations] returns the
    keys in the same order, no key occurs twice, and an entry is the
    [IntegrationSpec] built by [_create_spec] at registration whenever the
    decorator was not given a keyword argument named ["specification"]. *)
Theorem registered_specs_in_order env l :
  settled l (fresh env) →
  let s := attempts l (fresh env) in
  let reg := registered l (fresh env) in
  result_of (get_registered_integration_specs s) = Ok (map snd reg) ∧
  result_of (list_integrations s) = Ok (map fst reg) ∧
  NoDup (map fst reg) ∧
  length (map snd reg) = length (PyDict.keys (_integrations s)) ∧
  ((∀ a, a ∈ l → a_kwargs a !! "specification" = None) →
   Forall (λ kv, ∃ specification, kv.2 = MSpec specification) reg).
Proof.
  intros Hsettled s reg.
  pose proof (attempts_hold l (fresh env) [] (holds_fresh env) Hsettled)
    as Hholds.
  cbn [app] in Hholds. fold s reg in Hholds.
  destruct (holds_export s reg Hholds) as [Hspecs Hkeys].
  destruct Hholds as (Hk & _ & Hnd & _).
  repeat split; [done..| |].
  - by rewrite Hk, !length_map.
  - intros Hplain. unfold reg. clear -Hplain.
    generalize (fresh env) as s0.
    induction l as [|a l IH]; intros s0; [constructor|].
    cbn. apply Forall_app. split.
    + unfold registered_by.
      destruct (result_of (attempt _ _ _ _ a s0)); [|constructor].
      destruct (result_of (_create_spec _ _ _ _ s0)) as [specification|];
        [|constructor].
      repeat constructor. exists specification. cbn.
      unfold stored_specification. by rewrite Hplain by left.
    + apply IH. intros a' Ha'. apply Hplain. by right.
Qed.

End ExportOrder.

(** When the cleanup completes, the wrapper returns or raises exactly what
    its [try] block did. *)
Lemma wrapper_reraises batch_get_secrets w args kwargs s role
    secret_objs outcome s1 ev1 :
  default (VRole service_role) (kwargs !! "__role") = VRole role →
  wrapper_try batch_get_secrets w role args (delete "__role" kwargs) s =
    (Ok (secret_objs, outcome), s1, ev1) →
  result_of (_unset_secrets secret_objs s1) = Ok tt →
  result_of (wrapper batch_get_secrets w args kwargs s) = outcome ∧
  state_of (wrapper batch_get_secrets w args kwargs s) =
    state_of (_unset_secrets secret_objs s1).
Proof.
  intros Hrole Htry Hclean.
  rewrite (wrapper_run _ _ _ _ _ role Hrole), Htry.
  destruct (_unset_secrets secret_objs s1) as [[ru s2] ev2].
  cbn in *. by subst ru.
Qed.

(** ** The registry on examples *)

(** C6.  [post_message] raises [RuntimeError]; registered with the secrets
    ["slack"], ["jira"] and ["smtp_creds"], the first two of which both
    define [API_KEY], its wrapper raises [KeyError] from the cleanup
    instead, and the names of the third secret stay in the environment. *)
Theorem wrapper_cleanup_replaces_exception :
  let run := wrapper Demo.batch_get_secrets Demo.post_with_tokens [] ∅
               Demo.home in
  result_of (Demo.try_register
               (Demo.plain "Post a message"
                  (Some ["slack"; "jira"; "smtp_creds"]) Demo.post_message)
               Demo.home) = Ok Demo.post_with_tokens ∧
  (∀ env, call Demo.post_message [] ∅ env =
          (Err (Raised "RuntimeError" "boom"), env)) ∧
  filter is_call (events_of run) =
    [EvCall "integrations.demo.post_message" [] ∅] ∧
  result_of run = Err (KeyError "API_KEY") ∧
  environ (state_of run) !! "HOST" = Some "mail.example.org" ∧
  environ (state_of run) !! "PASS" = Some "hunter2" ∧
  environ Demo.home !! "HOST" = None.
Proof. repeat split; vm_compute; reflexivity. Qed.

(** C1, refuted as stated: [HOST] is set before the apply; after the apply
    and the revert it is gone. *)
Lemma set_then_unset_drops_preset_name :
  let run := (_set_secrets Demo.smtp_creds;; _unset_secrets Demo.smtp_creds)
               Demo.host_set in
  environ Demo.host_set !! "HOST" = Some "localhost" ∧
  result_of run = Ok tt ∧
  environ (state_of run) !! "HOST" = None ∧
  dom (environ (state_of run)) ≠ dom (environ Demo.host_set).
Proof.
  intros run.
  assert (Hbefore : environ Demo.host_set !! "HOST" = Some "localhost")
    by (vm_compute; reflexivity).
  assert (Hafter : environ (state_of run) !! "HOST" = None)
    by (vm_compute; reflexivity).
  split; [done|]. split; [vm_compute; reflexivity|]. split; [done|].
  intros Hdom.
  assert (Hin : "HOST" ∈ dom (environ Demo.host_set))
    by (apply elem_of_dom; by eexists).
  rewrite <- Hdom in Hin. apply elem_of_dom in Hin as [v Hv]. congruence.
Qed.

Lemma set_then_unset_secrets_witness :
  NoDup (secret_env_keys Demo.smtp_creds) ∧
  Forall accepted_item (secret_env_items Demo.smtp_creds) ∧
  let run := (_set_secrets Demo.smtp_creds;; _unset_secrets Demo.smtp_creds)
               Demo.home in
  result_of run = Ok tt ∧
  state_of run =
    with_environ (λ env, foldr delete env (secret_env_keys Demo.smtp_creds))
                 Demo.home ∧
  ((∀ k, k ∈ secret_env_keys Demo.smtp_creds → environ Demo.home !! k = None) →
   state_of run = Demo.home) ∧
  (∀ k, k ∈ secret_env_keys Demo.smtp_creds →
        environ (state_of run) !! k = None).
Proof.
  assert (Hnd : NoDup (secret_env_keys Demo.smtp_creds)).
  { apply (bool_decide_unpack _). vm_compute. exact I. }
  assert (Hacc : Forall accepted_item (secret_env_items Demo.smtp_creds))
    by accepted.
  split; [exact Hnd|]. split; [exact Hacc|].
  exact (set_then_unset_secrets Demo.smtp_creds Demo.home Hnd Hacc).
Defined.

Lemma unset_secrets_KeyError_witness :
  (∃ k, k ∈ secret_env_keys Demo.tokens ∧
        result_of (_unset_secrets Demo.tokens Demo.home) = Err (KeyError k)) ∧
  (∃ k, k ∈ secret_env_keys Demo.tokens ∧
        result_of (wrapper Demo.batch_get_secrets Demo.post_with_two [] ∅
                     Demo.home) = Err (KeyError k)).
Proof.
  assert (Hshared : shared_key Demo.tokens).
  { exists 0, 1, {| secret_name := "slack";
                    secret_keys := [ {| kv_key := "API_KEY"; kv_value := "xoxb-1" |} ] |},
           {| secret_name := "jira";
              secret_keys := [ {| kv_key := "API_KEY"; kv_value := "jira-2" |} ] |},
           "API_KEY".
    split; [lia|]. split; [reflexivity|]. split; [reflexivity|].
    split; cbn; left. }
  assert (Hitems : Forall accepted_item (secret_env_items Demo.tokens))
    by accepted.
  assert (Hnames : Forall accepted_name (secret_env_keys Demo.tokens))
    by accepted.
  destruct (unset_secrets_KeyError Demo.batch_get_secrets Demo.tokens Demo.home)
    as [Hunset Hwrapper].
  split.
  - destruct (Hunset (or_intror Hshared)) as (e & Hresult & Hkey).
    destruct (Hkey Hnames) as (k & Hk & ->). by exists k.
  - destruct (Hwrapper Demo.post_with_two [] ∅ service_role)
      as (e & Hresult & Hkey);
      [reflexivity|vm_compute; reflexivity|vm_compute; reflexivity
      |exact Hshared|].
    destruct (Hkey Hitems) as (k & Hk & ->). by exists k.
Defined.

(** C9, refuted as stated: the one name of this record is not set, but
    [unsetenv] refuses a name with an equals sign, and [_unset_secrets]
    raises its [OSError], not a [KeyError]. *)
Lemma unset_secrets_refused_name :
  (∃ k, k ∈ secret_env_keys Samples.legacy ∧ environ Demo.home !! k = None) ∧
  result_of (_unset_secrets Samples.legacy Demo.home) = Err EINVAL ∧
  ∀ k, result_of (_unset_secrets Samples.legacy Demo.home) ≠ Err (KeyError k).
Proof.
  assert (Hrun : result_of (_unset_secrets Samples.legacy Demo.home) = Err EINVAL)
    by (vm_compute; reflexivity).
  split; [|split; [exact Hrun|]].
  - exists "A=B". split; [cbn; left|vm_compute; reflexivity].
  - intros k. rewrite Hrun. discriminate.
Qed.

Lemma wrapper_fetch_failure_witness :
  let run := wrapper Demo.batch_get_secrets Demo.post_with_unknown [] ∅
               Demo.home in
  result_of run = Err (Raised "SecretNotFound" "pagerduty") ∧
  filter is_call (events_of run) = [] ∧
  state_of run = Demo.home ∧
  environ (state_of run) = environ Demo.home ∧
  EvFetch service_role (default [] (w_secrets Demo.post_with_unknown))
    ∈ events_of run.
Proof.
  apply (wrapper_fetch_failure Demo.batch_get_secrets Demo.post_with_unknown
           [] ∅ Demo.home service_role (Raised "SecretNotFound" "pagerduty"));
    [reflexivity|vm_compute; reflexivity|vm_compute; reflexivity].
Defined.

Lemma wrapper_forwards_arguments_witness :
  let run := wrapper Demo.batch_get_secrets Samples.echo_plain []
               Demo.kwargs_alice Demo.home in
  filter is_call (events_of run) =
    [EvCall (w_key Samples.echo_plain) []
            (delete "__role" Demo.kwargs_alice)] ∧
  result_of run = Ok (VStr "hello") ∧
  call Samples.echo [] Demo.kwargs_alice (environ Demo.home) =
    (Err (TypeError "echo() got an unexpected keyword argument"),
     environ Demo.home).
Proof.
  destruct (proj1 (proj2 (proj2 (proj2
              (wrapper_forwards_arguments Demo.batch_get_secrets
                 Samples.echo_plain [] Demo.kwargs_alice Demo.home))))
              Demo.alice)
    as (Hcalls & Hresult & _);
    [vm_compute; reflexivity|reflexivity|reflexivity|].
  split; [exact Hcalls|]. split.
  - rewrite Hresult. vm_compute. reflexivity.
  - vm_compute. reflexivity.
Defined.

(** C2, refuted as stated: the key of this redefinition of [send_email] is
    registered, yet the decorator reports the signature, not the
    duplicate. *)
Lemma register_duplicate_reports_signature :
  let run := Demo.try_register
               (Demo.plain "Send an email, again" None Demo.send_email_v2)
               Demo.two_registered in
  Demo.get_integration_key Demo.send_email_v2 =
    Ok "integrations.demo.send_email" ∧
  PyDict.contains "integrations.demo.send_email"
    (_integrations Demo.two_registered) = true ∧
  result_of run = Err (ValueError "Unsupported type constraint") ∧
  result_of run ≠ Err (DuplicateRegistration "integrations.demo.send_email").
Proof.
  intros run.
  assert (Hrun : result_of run = Err (ValueError "Unsupported type constraint"))
    by (vm_compute; reflexivity).
  split; [reflexivity|]. split; [vm_compute; reflexivity|]. split; [done|].
  rewrite Hrun. vm_compute. discriminate.
Qed.

Lemma register_check_order_witness :
  let again v := Demo.try_register (Demo.plain "Again" None v)
                   Demo.two_registered in
  (result_of (again Demo.send_email_v2) =
     Err (ValueError "Unsupported type constraint") ∧
   state_of (again Demo.send_email_v2) = Demo.two_registered) ∧
  (result_of (again Demo.send_email) =
     Err (DuplicateRegistration "integrations.demo.send_email") ∧
   state_of (again Demo.send_email) = Demo.two_registered) ∧
  (result_of (again Demo.settings) = Err InvalidIntegration ∧
   state_of (again Demo.settings) = Demo.two_registered).
Proof.
  intros again. split; [|split].
  - apply (proj1 (register_check_order Demo.validate_type_constraints
             Demo.get_integration_platform Demo.get_integration_key
             Demo.param_to_spec "Again" None ∅ Demo.send_email_v2
             Demo.two_registered "send_email" eq_refl)).
    vm_compute; reflexivity.
  - apply (proj1 (proj2 (register_check_order Demo.validate_type_constraints
             Demo.get_integration_platform Demo.get_integration_key
             Demo.param_to_spec "Again" None ∅ Demo.send_email
             Demo.two_registered "send_email" eq_refl)) "demo"
             "integrations.demo.send_email");
      vm_compute; reflexivity.
  - apply (proj2 (proj2 (register_check_order Demo.validate_type_constraints
             Demo.get_integration_platform Demo.get_integration_key
             Demo.param_to_spec "Again" None ∅ Demo.settings
             Demo.two_registered "settings" eq_refl)) "demo"
             "integrations.demo.settings");
      vm_compute; reflexivity.
Defined.

(** C4, refuted as stated: [post_message] is registered; registering its
    redefinition under the same key fails, but not with the
    duplicate-registration error. *)
Lemma reregistration_reports_signature :
  let run := Demo.try_register
               (Demo.plain "Post a message" None Demo.post_message_v2)
               Demo.two_registered in
  Demo.get_integration_key Demo.post_message_v2 =
    Ok "integrations.demo.post_message" ∧
  PyDict.contains "integrations.demo.post_message"
    (_integrations Demo.two_registered) = true ∧
  result_of run = Err (ValueError "Unsupported type constraint") ∧
  result_of run ≠ Err (DuplicateRegistration "integrations.demo.post_message").
Proof.
  intros run.
  assert (Hrun : result_of run = Err (ValueError "Unsupported type constraint"))
    by (vm_compute; reflexivity).
  split; [reflexivity|]. split; [vm_compute; reflexivity|]. split; [done|].
  rewrite Hrun. vm_compute. discriminate.
Qed.

Lemma register_duplicate_keeps_entry_witness :
  let key := "integrations.demo.post_message" in
  let run := Demo.try_register
               (Demo.plain "Post a message" None Demo.post_message)
               Demo.two_registered in
  state_of run = Demo.two_registered ∧
  PyDict.get key (_integrations (state_of run)) =
    PyDict.get key (_integrations Demo.two_registered) ∧
  PyDict.get key (_metadata (state_of run)) =
    PyDict.get key (_metadata Demo.two_registered) ∧
  result_of run = Err (DuplicateRegistration key).
Proof.
  intros key run.
  destruct (register_duplicate_keeps_entry Demo.validate_type_constraints
              Demo.get_integration_platform Demo.get_integration_key
              Demo.param_to_spec "Post a message" None ∅ Demo.post_message
              Demo.two_registered key)
    as (Herr & Hstate & Hw & Hmd & Hdup);
    [reflexivity|vm_compute; reflexivity|].
  split; [exact Hstate|]. split; [exact Hw|].
  split; [exact Hmd|exact Herr].
Defined.

Lemma register_non_callable_witness :
  let run := Demo.try_register (Demo.plain "Settings" None Demo.settings)
               Demo.home in
  callable Demo.settings = false ∧
  (∃ e, result_of run = Err e) ∧
  state_of run = Demo.home ∧
  result_of run = Err InvalidIntegration.
Proof.
  intros run.
  destruct (proj2 (register_non_callable Demo.validate_type_constraints
              Demo.get_integration_platform Demo.get_integration_key
              Demo.param_to_spec "Settings" None ∅ Demo.home)
              Demo.settings eq_refl)
    as (Herr & Hstate & Hinvalid).
  split; [reflexivity|]. split; [exact Herr|]. split; [exact Hstate|].
  apply (Hinvalid "demo" "integrations.demo.settings");
    [by eexists|reflexivity|reflexivity|reflexivity|reflexivity].
Defined.

Lemma register_not_atomic_witness :
  let run := Demo.try_register (Demo.plain "Greets" None Demo.greeter)
               Demo.home in
  registry_consistent Demo.home ∧
  result_of run = Err (AttributeError "__annotations__") ∧
  PyDict.contains "integrations.demo.greeter"
    (_integrations (state_of run)) = true ∧
  PyDict.contains "integrations.demo.greeter"
    (_metadata (state_of run)) = false ∧
  ¬ registry_consistent (state_of run).
Proof.
  intros run. split.
  - intros k. split; [reflexivity|]. intros H. discriminate H.
  - apply (register_not_atomic Demo.validate_type_constraints
             Demo.get_integration_platform Demo.get_integration_key
             Demo.param_to_spec "Greets" None ∅ Demo.greeter Demo.home
             "greeter" "demo" "integrations.demo.greeter");
      reflexivity.
Defined.

(** C7, refuted as stated: [send_email] is registered, then the
    registration of [greeter] raises after its wrapper was stored, and the
    export raises [KeyError] instead of returning the one specification;
    and an integration registered with a keyword named [specification] is
    exported as that keyword's value, which is not an [IntegrationSpec]. *)
Lemma export_after_attempts_fails :
  let run := attempts Demo.validate_type_constraints
               Demo.get_integration_platform Demo.get_integration_key
               Demo.param_to_spec in
  let s := run [Demo.plain "Send an email" None Demo.send_email;
                Demo.plain "Greets" None Demo.greeter] Demo.home in
  let s' := run [ {| a_description := "Send an email";
                     a_secrets := None;
                     a_kwargs := <["specification" := VStr "custom"]> ∅;
                     a_func := Demo.send_email |} ] Demo.home in
  (result_of (list_integrations s) =
     Ok ["integrations.demo.send_email"; "integrations.demo.greeter"] ∧
   result_of (get_registered_integration_specs s) =
     Err (KeyError "integrations.demo.greeter")) ∧
  (result_of (list_integrations s') = Ok ["integrations.demo.send_email"] ∧
   result_of (get_registered_integration_specs s') =
     Ok [MVal (VStr "custom")] ∧
   ∀ specification, MVal (VStr "custom") ≠ MSpec specification).
Proof.
  split; [split; vm_compute; reflexivity|].
  split; [vm_compute; reflexivity|]. split; [vm_compute; reflexivity|].
  discriminate.
Qed.

Lemma registered_specs_in_order_witness :
  let run := attempts Demo.validate_type_constraints
               Demo.get_integration_platform Demo.get_integration_key
               Demo.param_to_spec in
  let reg := registered Demo.validate_type_constraints
               Demo.get_integration_platform Demo.get_integration_key
               Demo.param_to_spec Demo.history Demo.home in
  let s := run Demo.history Demo.home in
  map fst reg =
    ["integrations.demo.send_email"; "integrations.demo.post_message"] ∧
  result_of (get_registered_integration_specs s) = Ok (map snd reg) ∧
  result_of (list_integrations s) = Ok (map fst reg) ∧
  NoDup (map fst reg) ∧
  length (map snd reg) = length (PyDict.keys (_integrations s)) ∧
  Forall (λ kv, ∃ specification, kv.2 = MSpec specification) reg.
Proof.
  intros run reg s.
  assert (Hsettled : settled Demo.validate_type_constraints
            Demo.get_integration_platform Demo.get_integration_key
            Demo.param_to_spec Demo.history Demo.home).
  { unfold Demo.history.
    split; [settle|]. split; [settle|]. split; [settle|].
    split; [settle|]. split; [settle|]. split; [settle|]. exact I. }
  destruct (registered_specs_in_order Demo.validate_type_constraints
              Demo.get_integration_platform Demo.get_integration_key
              Demo.param_to_spec (<["PATH" := "/usr/bin"]> ∅) Demo.history
              Hsettled)
    as (Hspecs & Hkeys & Hnd & Hlen & Hspec).
  split; [vm_compute; reflexivity|].
  split; [exact Hspecs|]. split; [exact Hkeys|]. split; [exact Hnd|].
  split; [exact Hlen|].
  apply Hspec. intros a Ha.
  repeat (apply elem_of_cons in Ha as [->|Ha]; [reflexivity|]).
  by apply elem_of_nil in Ha.
Defined.

(** * Further properties *)

(** ** The two loops *)

Lemma set_items_lookup items env k :
  set_items items env !! k =
  match last_value k items with
  | Some v => Some v
  | None => env !! k
  end.
Proof.
  revert env. induction items as [|[k' v] items IH]; intros env; [done|].
  cbn. rewrite IH. destruct (last_value k items); [done|].
  destruct (decide (k = k')) as [->|Hne].
  - by rewrite lookup_insert_eq.
  - by rewrite lookup_insert_ne.
Qed.

Lemma last_value_None k items :
  last_value k items = None ↔ k ∉ map fst items.
Proof.
  induction items as [|[k' v] items IH]; cbn.
  - split; [intros _; apply not_elem_of_nil|done].
  - rewrite not_elem_of_cons, <- IH.
    destruct (last_value k items); [split; [done|by intros [_ ?]]|].
    destruct (decide (k = k')); split; try done. by intros [? _].
Qed.

Lemma last_value_NoDup k v items :
  NoDup (map fst items) → (k, v) ∈ items → last_value k items = Some v.
Proof.
  induction items as [|[k' v'] items IH]; cbn.
  - by intros _ ?%elem_of_nil.
  - intros [Hfresh Hnd]%NoDup_cons [[= -> ->]|Hin]%elem_of_cons.
    + apply last_value_None in Hfresh as ->. by rewrite decide_True.
    + by rewrite (IH Hnd Hin).
Qed.

Lemma put_items_outside items env k :
  k ∉ map fst items → (put_items items env).2 !! k = env !! k.
Proof.
  revert env. induction items as [|[k' v] items IH]; intros env; [done|].
  cbn. intros [Hne Hk]%not_elem_of_cons.
  destruct (putenv_error k' v); [done|].
  rewrite IH by done. by rewrite lookup_insert_ne.
Qed.

Lemma put_items_first_refused before k v after e env :
  Forall accepted_item before → putenv_error k v = Some e →
  put_items (before ++ (k, v) :: after) env = (Err e, set_items before env).
Proof.
  intros Hacc He. rewrite put_items_app, put_items_accepted by done.
  cbn. by rewrite He.
Qed.

Lemma put_items_Ok items env :
  (put_items items env).1 = Ok tt → Forall accepted_item items.
Proof.
  revert env. induction items as [|[k v] items IH]; intros env; [constructor|].
  cbn. destruct (putenv_error k v) as [e|] eqn:E; [done|].
  intros H. constructor; [done|]. by eapply IH.
Qed.

(** X1.  [_set_secrets] only writes [os.environ], and only names of the
    records.  It returns exactly when [os.environ] takes every pair; then
    a name that one or more records define ends with the value of the last
    pair that names it.  Otherwise it raises the exception of the first
    pair that [os.environ] refuses and leaves the pairs before it set. *)
Theorem set_secrets_last_wins (secrets : list Secret) (s : Process) :
  let run := _set_secrets secrets s in
  _integrations (state_of run) = _integrations s ∧
  _metadata (state_of run) = _metadata s ∧
  (∀ k, k ∉ secret_env_keys secrets →
        environ (state_of run) !! k = environ s !! k) ∧
  (result_of run = Ok tt ↔ Forall accepted_item (secret_env_items secrets)) ∧
  (Forall accepted_item (secret_env_items secrets) →
   (∀ k, environ (state_of run) !! k =
         match last_value k (secret_env_items secrets) with
         | Some v => Some v
         | None => environ s !! k
         end) ∧
   (∀ k, k ∈ secret_env_keys secrets →
         is_Some (environ (state_of run) !! k))) ∧
  (∀ before k v after e,
     secret_env_items secrets = before ++ (k, v) :: after →
     Forall accepted_item before →
     putenv_error k v = Some e →
     result_of run = Err e ∧
     environ (state_of run) = set_items before (environ s)).
Proof.
  intros run. unfold run.
  destruct (_set_secrets_run secrets s) as (ev & -> & _).
  pose proof (put_items_outside (secret_env_items secrets) (environ s))
    as Houtside.
  pose proof (put_items_Ok (secret_env_items secrets) (environ s)) as HOk.
  pose proof (put_items_accepted (secret_env_items secrets) (environ s))
    as Hacc.
  pose proof (λ before k v after e,
    put_items_first_refused before k v after e (environ s)) as Hfirst.
  destruct (put_items (secret_env_items secrets) (environ s)) as [r env']
    eqn:Hput.
  unfold result_of, state_of.
  cbn [fst snd environ with_environ _integrations _metadata] in *.
  split; [done|]. split; [done|]. split; [|split; [|split]].
  - intros k Hk. apply Houtside. by rewrite secret_env_items_keys.
  - split; [exact HOk|]. intros H. specialize (Hacc H). congruence.
  - intros H. specialize (Hacc H). injection Hacc as _ ->. split.
    + intros k. apply set_items_lookup.
    + intros k Hk. apply set_items_is_Some. right.
      by rewrite secret_env_items_keys.
  - intros before k v after e Hitems Hbefore He.
    rewrite Hitems in Hput.
    rewrite (Hfirst before k v after e Hbefore He) in Hput.
    by injection Hput as <- <-.
Qed.

Lemma del_keys_spec ks env :
  (del_keys ks env).2 ⊆ env ∧
  (∀ k, k ∉ ks → (del_keys ks env).2 !! k = env !! k) ∧
  ((del_keys ks env).1 = Ok tt → (del_keys ks env).2 = foldr delete env ks) ∧
  (∀ e, (del_keys ks env).1 = Err e →
        ∃ k, k ∈ ks ∧
             (unsetenv_error k = Some e ∨
              e = KeyError k ∧ accepted_name k ∧
              (del_keys ks env).2 !! k = None)).
Proof.
  revert env. induction ks as [|k0 ks IH]; intros env.
  - cbn. repeat split; try done.
  - cbn. destruct (unsetenv_error k0) as [e0|] eqn:Eu.
    { cbn. split; [done|]. split; [done|]. split; [done|].
      intros e [= <-]. exists k0. split; [left|by left]. }
    destruct (env !! k0) as [v0|] eqn:E0.
    + destruct (IH (delete k0 env)) as (Hsub & Hother & Hok & Herr).
      split; [|split; [|split]].
      * etrans; [exact Hsub|]. apply delete_subseteq.
      * intros k [Hne Hk]%not_elem_of_cons. rewrite Hother by done.
        by rewrite lookup_delete_ne.
      * intros H. rewrite (Hok H). by rewrite delete_foldr_delete.
      * intros e H. destruct (Herr e H) as (k & Hk & Hcase).
        exists k. split; [by right|done].
    + cbn. split; [done|]. split; [done|]. split; [done|].
      intros e [= <-]. exists k0. split; [left|]. right. by split_and!.
Qed.

(** X2.  [_unset_secrets] only ever removes names: whatever it returns or
    raises, the environment it leaves is contained in the one it found,
    names outside the records keep their value, and the registry is
    untouched.  When it returns, every name of the records is gone; when it
    raises, the exception is the one of [unsetenv] for a name of the records
    that it refuses, or [KeyError] for a name of the records that is not
    set at that point, and the names after it are not deleted. *)
Theorem unset_secrets_only_removes (secrets : list Secret) (s : Process) :
  let run := _unset_secrets secrets s in
  environ (state_of run) ⊆ environ s ∧
  _integrations (state_of run) = _integrations s ∧
  _metadata (state_of run) = _metadata s ∧
  (∀ k, k ∉ secret_env_keys secrets →
        environ (state_of run) !! k = environ s !! k) ∧
  (result_of run = Ok tt →
   environ (state_of run) = foldr delete (environ s) (secret_env_keys secrets)) ∧
  (∀ e, result_of run = Err e →
        ∃ k, k ∈ secret_env_keys secrets ∧
             (unsetenv_error k = Some e ∨
              e = KeyError k ∧ accepted_name k ∧
              environ (state_of run) !! k = None)).
Proof.
  intros run. unfold run.
  destruct (_unset_secrets_run secrets s) as (ev & -> & _).
  destruct (del_keys_spec (secret_env_keys secrets) (environ s))
    as (Hsub & Hother & Hok & Herr).
  destruct (del_keys _ _) as [r env']. unfold result_of, state_of.
  cbn [fst snd environ with_environ _integrations _metadata] in *.
  repeat split; done.
Qed.

(** ** The wrapper around a call *)

Lemma foldr_delete_absent (env : gmap string string) ks :
  (∀ k, k ∈ ks → env !! k = None) → foldr delete env ks = env.
Proof.
  induction ks as [|k ks IH]; intros H; [done|].
  cbn. rewrite IH by (intros k' ?; apply H; by right).
  apply delete_id, H. left.
Qed.

Lemma is_log_not_fetch ev : Forall is_log ev → filter is_fetch ev = [].
Proof.
  induction 1 as [|e ev He _ IH]; [done|].
  destruct e; done.
Qed.

Lemma invoke_call key func args kwargs s outcome env2 :
  callable func = true →
  call func args kwargs (environ s) = (outcome, env2) →
  invoke key func args kwargs s =
  (outcome, with_environ (λ _, env2) s, [EvCall key args kwargs]).
Proof. intros Hc Hcall. unfold invoke. by rewrite Hc, Hcall. Qed.

Section ScopedSecrets.
Variable batch_get_secrets : Role → list string → Result (list Secret).

(** X3.  A call through the wrapper with secrets whose names are pairwise
    distinct and whose pairs [os.environ] takes: the body runs in the
    caller's environment with every pair of the fetched records set.  If these names are still set when the body
    returns or raises, the wrapper returns what the body returned, or raises
    what it raised, and leaves the body's environment without these names;
    the registry is untouched.  When the body does not change the
    environment and none of the names was set before, the process is as it
    was before the call. *)
Theorem wrapper_scoped_call w args kwargs s role objs outcome env2 :
  default (VRole service_role) (kwargs !! "__role") = VRole role →
  truthy (w_secrets w) = true →
  batch_get_secrets role (default [] (w_secrets w)) = Ok objs →
  callable (w_func w) = true →
  NoDup (secret_env_keys objs) →
  Forall accepted_item (secret_env_items objs) →
  call (w_func w) args (delete "__role" kwargs)
       (set_items (secret_env_items objs) (environ s)) = (outcome, env2) →
  (∀ k, k ∈ secret_env_keys objs → is_Some (env2 !! k)) →
  let run := wrapper batch_get_secrets w args kwargs s in
  (∀ k v, (k, v) ∈ secret_env_items objs →
          set_items (secret_env_items objs) (environ s) !! k = Some v) ∧
  result_of run = outcome ∧
  environ (state_of run) = foldr delete env2 (secret_env_keys objs) ∧
  _integrations (state_of run) = _integrations s ∧
  _metadata (state_of run) = _metadata s ∧
  (env2 = set_items (secret_env_items objs) (environ s) →
   (∀ k, k ∈ secret_env_keys objs → environ s !! k = None) →
   state_of run = s).
Proof.
  intros Hrole Ht Hf Hc Hnd Hacc Hcall Hkept run.
  split.
  { intros k v Hin. rewrite set_items_lookup.
    rewrite (last_value_NoDup k v); [done| |done].
    by rewrite secret_env_items_keys. }
  unfold run. rewrite (wrapper_run _ _ _ _ _ role Hrole).
  destruct (wrapper_try_set _ _ _ args (delete "__role" kwargs) s _ Ht Hf Hacc)
    as (evs & Hevs & ->).
  rewrite (invoke_call _ _ _ _
             (with_environ
                (λ _, set_items (secret_env_items objs) (environ s)) s)
             outcome env2 Hc Hcall).
  destruct (_unset_secrets_run objs
    (with_environ (λ _, env2)
       (with_environ (λ _, set_items (secret_env_items objs) (environ s)) s)))
    as (ev2 & -> & _).
  cbn [environ with_environ].
  rewrite (del_keys_ok _ _ Hnd (items_accepted_keys _ Hacc) Hkept).
  unfold result_of, state_of.
  cbn [fst snd environ with_environ _integrations _metadata].
  split; [done|]. split; [done|]. split; [done|]. split; [done|].
  intros -> Habsent.
  rewrite foldr_delete_set_items
    by (intros k; by rewrite secret_env_items_keys).
  rewrite (foldr_delete_absent _ _ Habsent). by destruct s.
Qed.

Lemma wrapper_no_secrets_run w args kwargs s role outcome env2 :
  default (VRole service_role) (kwargs !! "__role") = VRole role →
  truthy (w_secrets w) = false →
  callable (w_func w) = true →
  call (w_func w) args (delete "__role" kwargs) (environ s) = (outcome, env2) →
  wrapper batch_get_secrets w args kwargs s =
  (outcome, with_environ (λ _, env2) s,
   [EvLog INFO "Executing in subprocess";
    EvCall (w_key w) args (delete "__role" kwargs)] ++
   match outcome with
   | Err e => if is_Exception e
              then [EvLog ERROR "Error running integration {!r}: {!s}"]
              else []
   | Ok _ => []
   end ++ [EvLog INFO "Cleaning up after integration {!r}"]).
Proof.
  intros Hrole Ht Hc Hcall.
  rewrite (wrapper_run _ _ _ _ _ role Hrole).
  rewrite wrapper_try_no_secrets by done.
  rewrite (invoke_call _ _ _ _ _ outcome env2 Hc Hcall).
  unfold _unset_secrets. cbn [for_each mret M_ret ret].
  reflexivity.
Qed.

(** X4.  A call through a wrapper registered without secrets ([None] or the
    empty list): nothing is fetched, the body runs in the caller's
    environment, its return value or exception is the wrapper's, and the
    process is left as the body left it.  The run logs the start, calls the
    body once with the forwarded arguments, logs the error when the body
    raised an [Exception], and logs the cleanup. *)
Theorem wrapper_without_secrets w args kwargs s role outcome env2 :
  default (VRole service_role) (kwargs !! "__role") = VRole role →
  truthy (w_secrets w) = false →
  callable (w_func w) = true →
  call (w_func w) args (delete "__role" kwargs) (environ s) = (outcome, env2) →
  let run := wrapper batch_get_secrets w args kwargs s in
  result_of run = outcome ∧
  state_of run = with_environ (λ _, env2) s ∧
  filter is_fetch (events_of run) = [] ∧
  events_of run =
    [EvLog INFO "Executing in subprocess";
     EvCall (w_key w) args (delete "__role" kwargs)] ++
    match outcome with
    | Err e => if is_Exception e
               then [EvLog ERROR "Error running integration {!r}: {!s}"]
               else []
    | Ok _ => []
    end ++ [EvLog INFO "Cleaning up after integration {!r}"].
Proof.
  intros Hrole Ht Hc Hcall run. unfold run.
  rewrite (wrapper_no_secrets_run _ _ _ _ role outcome env2 Hrole Ht Hc Hcall).
  unfold result_of, state_of, events_of. cbn [fst snd].
  split; [done|]. split; [done|].
  by destruct outcome as [v|e]; [|destruct (is_Exception e)].
Qed.

(** X5.  The wrapper asks for the secrets at most once per call: when the
    [__role] keyword (or its default, the service role) is a [Role] and the
    integration declares secrets, there is exactly one fetch, for that role
    and for the declared names in the declared order, whether the fetch, the
    body or the cleanup fails or not; without declared secrets there is
    none.  When [__role] is not a [Role] the call raises [AttributeError]
    before anything is logged, fetched or called. *)
Theorem wrapper_fetches_once w args kwargs s :
  let run := wrapper batch_get_secrets w args kwargs s in
  (∀ role,
     default (VRole service_role) (kwargs !! "__role") = VRole role →
     filter is_fetch (events_of run) =
     if truthy (w_secrets w)
     then [EvFetch role (default [] (w_secrets w))] else []) ∧
  (kwargs !! "__role" = None → truthy (w_secrets w) = true →
   filter is_fetch (events_of run) =
   [EvFetch service_role (default [] (w_secrets w))]) ∧
  ((∀ role, default (VRole service_role) (kwargs !! "__role") ≠ VRole role) →
   run = (Err (AttributeError "user_id"), s, [])).
Proof.
  intros run.
  assert (Hexc : ∀ outcome : Result PyVal,
    filter is_fetch
      match outcome with
      | Err e => if is_Exception e
                 then [EvLog ERROR "Error running integration {!r}: {!s}"]
                 else []
      | Ok _ => []
      end = []).
  { intros [v|e]; [|destruct (is_Exception e)]; done. }
  assert (Hmain : ∀ role,
     default (VRole service_role) (kwargs !! "__role") = VRole role →
     filter is_fetch (events_of run) =
     if truthy (w_secrets w)
     then [EvFetch role (default [] (w_secrets w))] else []).
  { intros role Hrole. unfold run.
    rewrite (wrapper_run _ _ _ _ _ role Hrole).
    destruct (truthy (w_secrets w)) eqn:Ht.
    - destruct (batch_get_secrets role (default [] (w_secrets w)))
        as [objs|e] eqn:Hf.
      + destruct (wrapper_try_fetched _ _ _ args (delete "__role" kwargs) s _
                    Ht Hf) as (evs & Hevs & ->).
        cbn zeta. destruct (put_items _ _) as [[[]|e0] env1].
        * pose proof (invoke_events (w_key w) (w_func w) args
            (delete "__role" kwargs) (with_environ (λ _, env1) s)) as Hcall.
          destruct (invoke _ _ _ _ _) as [[outcome s1] evc].
          destruct (_unset_secrets_run objs s1) as (ev2 & -> & Hev2).
          destruct (del_keys _ _) as [ru env2].
          unfold events_of in *. cbn [snd] in *. subst evc.
          rewrite !filter_app, Hexc, (is_log_not_fetch evs Hevs).
          rewrite (filter_cons_False _
                     (EvLog INFO "Cleaning up after integration {!r}"))
            by (cbn; tauto).
          rewrite (is_log_not_fetch ev2 Hev2).
          by destruct (callable (w_func w)).
        * destruct (_unset_secrets_run objs (with_environ (λ _, env1) s))
            as (ev2 & -> & Hev2).
          destruct (del_keys _ _) as [ru env2].
          unfold events_of. cbn [snd].
          rewrite !filter_app, (Hexc (Err e0)), (is_log_not_fetch evs Hevs).
          rewrite (filter_cons_False _
                     (EvLog INFO "Cleaning up after integration {!r}"))
            by (cbn; tauto).
          by rewrite (is_log_not_fetch ev2 Hev2).
      + rewrite (wrapper_try_fetch_failed _ _ _ _ _ _ e Ht Hf). cbn.
        by destruct (is_Exception e).
    - rewrite wrapper_try_no_secrets by done.
      pose proof (invoke_events (w_key w) (w_func w) args
        (delete "__role" kwargs) s) as Hcall.
      destruct (invoke _ _ _ _ _) as [[outcome s1] evc]. cbn.
      unfold events_of in *. cbn [snd] in *. subst evc.
      by destruct (callable (w_func w));
        (destruct outcome as [v|e]; [|destruct (is_Exception e)]). }
  split; [exact Hmain|]. split.
  - intros Hnone Ht. rewrite (Hmain service_role), Ht; [done|].
    by rewrite Hnone.
  - intros Hr. by apply wrapper_not_a_role.
Qed.

End ScopedSecrets.

(** ** Lists built element by element *)

Lemma map_result_Forall2 {A B} (f : A → Result B) l l' :
  map_result f l = Ok l' ↔ Forall2 (λ x y, f x = Ok y) l l'.
Proof.
  revert l'. induction l as [|x l IH]; intros l'; cbn.
  - split; [intros [= <-]; constructor|]. by intros ->%Forall2_nil_inv_l.
  - destruct (f x) as [y|e] eqn:E.
    + destruct (map_result f l) as [ys|e] eqn:E'.
      * split.
        -- intros [= <-]. constructor; [done|]. by apply IH.
        -- intros (y' & ys' & Hy & Hys & ->)%Forall2_cons_inv_l.
           apply IH in Hys. congruence.
      * split; [done|].
        intros (y' & ys' & Hy & Hys & ->)%Forall2_cons_inv_l.
        by apply IH in Hys.
    + split; [done|].
      intros (y' & ys' & Hy & Hys & ->)%Forall2_cons_inv_l. congruence.
Qed.

Lemma map_result_first_failure {A B} (f : A → Result B) l1 x l2 e :
  Forall (λ x, ∃ y, f x = Ok y) l1 → f x = Err e →
  map_result f (l1 ++ x :: l2) = Err e.
Proof.
  intros Hl1 Hx. induction Hl1 as [|x1 l1 [y Hy] _ IH]; cbn.
  - by rewrite Hx.
  - by rewrite Hy, IH.
Qed.

Lemma map_result_total {A B} (f : A → Result B) l :
  Forall (λ x, ∃ y, f x = Ok y) l → ∃ l', map_result f l = Ok l'.
Proof.
  induction 1 as [|x l [y Hy] _ [l' IH]]; cbn.
  - by eexists.
  - rewrite Hy, IH. by eexists.
Qed.

(** ** Building the specification *)

Section SpecificationFacts.

Variable get_integration_platform : PyObj → Result string.
Variable param_to_spec : string → InspectParameter → Result ParameterSpec.

#[local] Abbreviation create_spec :=
  (_create_spec get_integration_platform param_to_spec).

Lemma _create_spec_result func description s :
  result_of (create_spec func description s) =
  match signature func with
  | Err e => Err e
  | Ok params =>
    match map_result (λ np, param_to_spec np.1 np.2) params with
    | Err e => Err e
    | Ok param_list =>
      match get_integration_platform func with
      | Err e => Err e
      | Ok platform =>
        match __name__ func with
        | None => Err (AttributeError "__name__")
        | Some name =>
            Ok {| spec_name := name;
                  spec_description := description;
                  spec_docstring :=
                    match __doc__ func with
                    | Some d => if decide (d = EmptyString)
                                then "No documentation provided." else d
                    | None => "No documentation provided."
                    end;
                  spec_platform := platform;
                  spec_parameters := param_list |}
        end
      end
    end
  end.
Proof.
  unfold _create_spec.
  rewrite !run_bind. unfold result_of, lift.
  destruct (signature func) as [params|e]; [|done]. cbn [app].
  rewrite !run_bind.
  destruct (map_result _ params) as [param_list|e]; [|done]. cbn [app].
  rewrite !run_bind.
  destruct (get_integration_platform func) as [platform|e]; [|done].
  cbn [app]. rewrite !run_bind.
  by destruct (__name__ func).
Qed.

(** X6.  A specification that [_create_spec] returns has the callable's
    name and platform and the given description; its parameters are the
    results of [param_to_spec] on the parameters of the signature, one for
    each and in the same order; its docstring is never empty: it is the
    callable's docstring, or "No documentation provided." when the
    callable has none or an empty one. *)
Theorem create_spec_fields func description s specification :
  result_of (create_spec func description s) = Ok specification →
  (∃ params,
     signature func = Ok params ∧
     length (spec_parameters specification) = length params ∧
     Forall2 (λ np ps, param_to_spec np.1 np.2 = Ok ps)
             params (spec_parameters specification)) ∧
  __name__ func = Some (spec_name specification) ∧
  get_integration_platform func = Ok (spec_platform specification) ∧
  spec_description specification = description ∧
  spec_docstring specification ≠ EmptyString ∧
  (∀ d, __doc__ func = Some d → d ≠ EmptyString →
        spec_docstring specification = d) ∧
  (__doc__ func = None ∨ __doc__ func = Some EmptyString →
   spec_docstring specification = "No documentation provided.").
Proof.
  rewrite _create_spec_result.
  destruct (signature func) as [params|e]; [|done].
  destruct (map_result _ params) as [param_list|e] eqn:Hparams; [|done].
  destruct (get_integration_platform func) as [platform|e]; [|done].
  destruct (__name__ func) as [name|]; [|done].
  intros [= <-]. cbn [spec_name spec_description spec_docstring
                      spec_platform spec_parameters].
  apply map_result_Forall2 in Hparams.
  split.
  { exists params. split; [done|]. split; [|done].
    symmetry. by eapply Forall2_length. }
  split; [done|]. split; [done|]. split; [done|]. split; [|split].
  - destruct (__doc__ func) as [d|]; [|done].
    by destruct (decide (d = EmptyString)).
  - intros d -> Hd. by rewrite decide_False.
  - by intros [->| ->].
Qed.

(** X7.  [_create_spec] fails in the order of its statements and touches
    nothing: an exception of [inspect.signature] comes first, then the one
    of the first parameter that [param_to_spec] rejects, then the one of
    [get_integration_platform], and only then the missing [__name__].  The
    process is left as it was and nothing is logged. *)
Theorem create_spec_error_order func description s :
  let run := create_spec func description s in
  state_of run = s ∧ events_of run = [] ∧
  (∀ e, signature func = Err e → result_of run = Err e) ∧
  (∀ before np after e,
     signature func = Ok (before ++ np :: after) →
     Forall (λ np, ∃ ps, param_to_spec np.1 np.2 = Ok ps) before →
     param_to_spec np.1 np.2 = Err e →
     result_of run = Err e) ∧
  (∀ params e,
     signature func = Ok params →
     Forall (λ np, ∃ ps, param_to_spec np.1 np.2 = Ok ps) params →
     get_integration_platform func = Err e →
     result_of run = Err e) ∧
  (∀ params platform,
     signature func = Ok params →
     Forall (λ np, ∃ ps, param_to_spec np.1 np.2 = Ok ps) params →
     get_integration_platform func = Ok platform →
     __name__ func = None →
     result_of run = Err (AttributeError "__name__")).
Proof.
  intros run. unfold run. rewrite _create_spec_run.
  unfold state_of, events_of. cbn [fst snd].
  split; [done|]. split; [done|].
  change (result_of (result_of (create_spec func description s), s, []))
    with (result_of (create_spec func description s)).
  rewrite _create_spec_result.
  split; [|split; [|split]].
  - by intros e ->.
  - intros before np after e -> Hbefore Hnp.
    by rewrite (map_result_first_failure _ _ _ _ e Hbefore Hnp).
  - intros params e -> Hparams ->.
    by destruct (map_result_total _ _ Hparams) as [param_list ->].
  - intros params platform -> Hparams -> ->.
    by destruct (map_result_total _ _ Hparams) as [param_list ->].
Qed.

End SpecificationFacts.

(** ** Looking an integration up *)


(** ** What a registration leaves behind *)

Lemma __new___run s :
  __new__ s =
  (Ok tt,
   if _instance s then s
   else {| environ := environ s; _instance := true;
           _integrations := PyDict.empty; _metadata := PyDict.empty |},
   []).
Proof.
  unfold __new__. rewrite run_bind. cbn [get_state app].
  by destruct (_instance s).
Qed.

Section RegistrationFacts.

Variable validate_type_constraints : PyObj → Result unit.
Variable get_integration_platform : PyObj → Result string.
Variable get_integration_key : PyObj → Result string.
Variable param_to_spec : string → InspectParameter → Result ParameterSpec.

#[local] Abbreviation decorate :=
  (decorator_register validate_type_constraints get_integration_platform
     get_integration_key param_to_spec).

(** The only way to the [return wrapper] of the decorator. *)
Lemma decorator_register_Ok description secrets integration_kwargs func s w :
  result_of (decorate description secrets integration_kwargs func s) = Ok w →
  ∃ platform key annotations specification,
    validate_type_constraints func = Ok tt ∧
    get_integration_platform func = Ok platform ∧
    get_integration_key func = Ok key ∧
    PyDict.contains key (_integrations s) = false ∧
    callable func = true ∧
    __annotations__ func = Some annotations ∧
    result_of (_create_spec get_integration_platform param_to_spec
                 func description s) = Ok specification ∧
    w = {| w_func := func; w_key := key; w_secrets := secrets |} ∧
    state_of (decorate description secrets integration_kwargs func s) =
      with_metadata (PyDict.set key
        (metadata_record platform description
           (default "None" (annotations !! "return"))
           specification integration_kwargs))
        (with_integrations (PyDict.set key w) s).
Proof.
  rewrite decorator_register_run.
  destruct (__name__ func) as [name|]; [|done].
  destruct (validate_type_constraints func) as [[]|?]; [|done].
  destruct (get_integration_platform func) as [platform|?] eqn:Hp; [|done].
  destruct (get_integration_key func) as [key|?]; [|done].
  cbn zeta.
  destruct (PyDict.contains key (_integrations s)) eqn:Hin; [done|].
  destruct (callable func); [|done]. cbn [negb].
  destruct (__annotations__ func) as [annotations|]; [|done].
  rewrite (_create_spec_state_independent _ _ func description
             (with_integrations
                (PyDict.set key
                   {| w_func := func; w_key := key; w_secrets := secrets |}) s)
             s).
  destruct (result_of (_create_spec _ _ func description s))
    as [specification|?]; [|done].
  unfold result_of, state_of. cbn [fst snd]. intros [= <-].
  exists platform, key, annotations, specification. by split_and!.
Qed.

(** Whatever the decorator does, it stores at most one wrapper and at most
    one record, both under a key that was not registered. *)
Lemma decorator_register_frame description secrets integration_kwargs func s :
  let s' := state_of (decorate description secrets integration_kwargs func s) in
  environ s' = environ s ∧ _instance s' = _instance s ∧
  (_integrations s' = _integrations s ∨
   ∃ key, PyDict.contains key (_integrations s) = false ∧
          _integrations s' =
            PyDict.set key
              {| w_func := func; w_key := key; w_secrets := secrets |}
              (_integrations s)) ∧
  (_metadata s' = _metadata s ∨
   ∃ key record, PyDict.contains key (_integrations s) = false ∧
                 _metadata s' = PyDict.set key record (_metadata s)).
Proof.
  cbn zeta. rewrite decorator_register_run.
  destruct (__name__ func) as [name|]; [|by split_and!; auto].
  destruct (validate_type_constraints func) as [[]|?]; [|by split_and!; auto].
  destruct (get_integration_platform func) as [platform|?];
    [|by split_and!; auto].
  destruct (get_integration_key func) as [key|?]; [|by split_and!; auto].
  cbn zeta.
  destruct (PyDict.contains key (_integrations s)) eqn:Hin;
    [by split_and!; auto|].
  destruct (callable func); [|by split_and!; auto]. cbn [negb].
  destruct (__annotations__ func) as [annotations|].
  2:{ unfold state_of. cbn. split_and!; [done..| |by left].
      right. by exists key. }
  destruct (result_of (_create_spec _ _ _ _ _)) as [specification|?].
  - unfold state_of. cbn. split_and!; [done..| |].
    + right. by exists key.
    + right. by eexists key, _.
  - unfold state_of. cbn. split_and!; [done..| |by left].
    right. by exists key.
Qed.

(** X9.  Whether the decorator returns or raises, it never replaces or
    removes what the registry holds: [os.environ] is as before, the
    registered keys keep their order and at most one key is added after
    them, every registered name still maps to the same wrapper, and the
    metadata record of every registered name is unchanged. *)
Theorem register_never_overwrites description secrets integration_kwargs
    func s :
  let s' := state_of (decorate description secrets integration_kwargs func s) in
  environ s' = environ s ∧
  PyDict.keys (_integrations s) `prefix_of` PyDict.keys (_integrations s') ∧
  (length (PyDict.keys (_integrations s')) ≤
     S (length (PyDict.keys (_integrations s))))%nat ∧
  (∀ k w0, PyDict.get k (_integrations s) = Some w0 →
           PyDict.get k (_integrations s') = Some w0) ∧
  (∀ k r, PyDict.contains k (_integrations s) = true →
          PyDict.get k (_metadata s) = Some r →
          PyDict.get k (_metadata s') = Some r).
Proof.
  intros s'.
  destruct (decorator_register_frame description secrets integration_kwargs
              func s) as (Henv & _ & Hint & Hmeta).
  fold s' in Henv, Hint, Hmeta.
  split; [done|].
  assert (Hne : ∀ k key, PyDict.contains key (_integrations s) = false →
                PyDict.contains k (_integrations s) = true → k ≠ key)
    by (intros k key ? ? ->; congruence).
  split; [|split; [|split]].
  - destruct Hint as [->|(key & Hfresh & ->)]; [done|].
    rewrite keys_set_fresh by done. by eexists.
  - destruct Hint as [->|(key & Hfresh & ->)]; [lia|].
    rewrite keys_set_fresh by done. rewrite length_app. cbn. lia.
  - intros k w0 Hk. destruct Hint as [->|(key & Hfresh & ->)]; [done|].
    rewrite get_set_ne; [done|]. apply Hne; [done|].
    unfold PyDict.contains. by rewrite Hk.
  - intros k r Hk Hr. destruct Hmeta as [->|(key & record & Hfresh & ->)];
      [done|].
    rewrite get_set_ne; [done|]. by apply Hne.
Qed.

(** X10.  Register, then look up: when the decorator returns a wrapper, the
    wrapper holds the decorated callable and the declared secrets, its key
    is the one [get_integration_key] gives and was not registered before;
    afterwards [__contains__] accepts the key, [get_integration] returns
    this very wrapper for it, [list_integrations] lists the key last, and
    the lookup of every other name gives what it gave before. *)
Theorem register_then_lookup description secrets integration_kwargs func s w :
  result_of (decorate description secrets integration_kwargs func s) = Ok w →
  let s' := state_of (decorate description secrets integration_kwargs func s) in
  w_func w = func ∧ w_secrets w = secrets ∧
  get_integration_key func = Ok (w_key w) ∧
  result_of (__contains__ (w_key w) s) = Ok false ∧
  result_of (__contains__ (w_key w) s') = Ok true ∧
  result_of (get_integration (w_key w) s') = Ok w ∧
  result_of (list_integrations s') =
    Ok (PyDict.keys (_integrations s) ++ [w_key w]) ∧
  (∀ k, k ≠ w_key w →
        result_of (get_integration k s') = result_of (get_integration k s)).
Proof.
  intros Hok s'.
  destruct (decorator_register_Ok _ _ _ _ _ _ Hok)
    as (platform & key & annotations & specification & _ & _ & Hkey & Hfresh
        & _ & _ & _ & Hw & Hs').
  fold s' in Hs'.
  assert (Hint : _integrations s' = PyDict.set key w (_integrations s))
    by (by rewrite Hs').
  assert (Hk : w_key w = key) by (by rewrite Hw).
  rewrite Hk.
  unfold __contains__, get_integration, list_integrations.
  rewrite !run_bind. cbn [get_state app]. unfold result_of. cbn [fst].
  rewrite Hint, Hfresh.
  split; [by rewrite Hw|]. split; [by rewrite Hw|]. split; [done|].
  split; [done|]. split; [by rewrite contains_set, decide_True|].
  split; [by rewrite get_set_eq|]. split; [by rewrite keys_set_fresh|].
  intros k Hne. rewrite !run_bind. cbn [get_state app fst].
  rewrite Hint, get_set_ne by done.
  by destruct (PyDict.get k (_integrations s)).
Qed.

(** X11.  The decorator succeeds whenever each of its steps does: the
    object has a [__name__], passes [validate_type_constraints], has a
    platform and a key that is not registered, is callable, has
    [__annotations__] and a signature each of whose parameters
    [param_to_spec] accepts.  It then logs one line, returns the wrapper of
    the callable under that key, and a registry whose two dicts agreed
    before still has them agree. *)
Theorem register_succeeds description secrets integration_kwargs func s
    name platform key annotations params :
  __name__ func = Some name →
  validate_type_constraints func = Ok tt →
  get_integration_platform func = Ok platform →
  get_integration_key func = Ok key →
  PyDict.contains key (_integrations s) = false →
  callable func = true →
  __annotations__ func = Some annotations →
  signature func = Ok params →
  Forall (λ np, ∃ ps, param_to_spec np.1 np.2 = Ok ps) params →
  let run := decorate description secrets integration_kwargs func s in
  result_of run =
    Ok {| w_func := func; w_key := key; w_secrets := secrets |} ∧
  events_of run = [EvLog INFO "Registering integration"] ∧
  (registry_consistent s → registry_consistent (state_of run)).
Proof.
  intros Hname Hvalid Hplatform Hkey Hfresh Hcallable Hann Hsig Hparams run.
  unfold run. rewrite decorator_register_run.
  rewrite Hname, Hvalid, Hplatform, Hkey. cbn zeta.
  rewrite Hfresh, Hcallable, Hann. cbn [negb].
  rewrite _create_spec_result, Hsig, Hplatform, Hname.
  destruct (map_result_total _ _ Hparams) as [param_list ->].
  unfold result_of, state_of, events_of. cbn [fst snd].
  split; [done|]. split; [done|].
  intros Hcons k. destruct (Hcons k) as [Hsame Hspec].
  cbn [_integrations _metadata with_metadata with_integrations].
  rewrite !contains_set. unfold specification_of.
  destruct (decide (k = key)) as [->|Hne].
  - split; [done|]. intros _. rewrite get_set_eq.
    rewrite metadata_record_specification. by eexists.
  - split; [done|]. rewrite get_set_ne by done. exact Hspec.
Qed.

(** The keywords that reach [**integration_kwargs] name none of the
    parameters of [register]. *)
Lemma bound_twice_None integration_kwargs :
  bound_twice integration_kwargs = None →
  ∀ name, name ∈ register_parameters → integration_kwargs !! name = None.
Proof.
  unfold bound_twice. intros Hfind name Hin.
  apply list_elem_of_In in Hin.
  pose proof (find_none _ _ Hfind name Hin) as Hname. cbn beta in Hname.
  apply bool_decide_eq_false in Hname.
  destruct (integration_kwargs !! name); [|done].
  destruct Hname. by eexists.
Qed.

(** X12.  The metadata record of a successful registration
    [registry.register(description, secrets, **kwargs)(func)]: the keywords
    name none of the parameters of [register], and every one of them is
    stored under its own name; [description] holds the description; the
    fields [platform], [return_type] and [specification] hold the platform,
    the rendered return annotation ("None" when the callable declares
    none) and the built specification, each unless a keyword of that name
    replaced it; the record has no other field. *)
Theorem register_metadata_fields (a : Attempt) s w :
  result_of (attempt validate_type_constraints get_integration_platform
               get_integration_key param_to_spec a s) = Ok w →
  let s' := state_of (attempt validate_type_constraints
                        get_integration_platform get_integration_key
                        param_to_spec a s) in
  ∃ record platform annotations specification,
    PyDict.get (w_key w) (_metadata s') = Some record ∧
    get_integration_platform (a_func a) = Ok platform ∧
    __annotations__ (a_func a) = Some annotations ∧
    result_of (_create_spec get_integration_platform param_to_spec
                 (a_func a) (a_description a) s) = Ok specification ∧
    (∀ name, name ∈ register_parameters → a_kwargs a !! name = None) ∧
    (∀ k v, a_kwargs a !! k = Some v → record !! k = Some (MVal v)) ∧
    record !! "description" = Some (MStr (a_description a)) ∧
    (a_kwargs a !! "platform" = None →
     record !! "platform" = Some (MStr platform)) ∧
    (a_kwargs a !! "return_type" = None →
     record !! "return_type" =
       Some (MStr (default "None" (annotations !! "return")))) ∧
    (a_kwargs a !! "specification" = None →
     record !! "specification" = Some (MSpec specification)) ∧
    (∀ k, a_kwargs a !! k = None →
          k ∉ ["platform"; "description"; "return_type"; "specification"] →
          record !! k = None).
Proof.
  cbn zeta. rewrite attempt_run.
  destruct (bound_twice (a_kwargs a)) eqn:Hbound; [done|].
  intros Hok.
  pose proof (bound_twice_None _ Hbound) as Hfree.
  destruct (decorator_register_Ok _ _ _ _ _ _ Hok)
    as (platform & key & annotations & specification & _ & Hplatform & _ & _
        & _ & Hann & Hspec & Hw & Hs').
  exists (metadata_record platform (a_description a)
            (default "None" (annotations !! "return"))
            specification (a_kwargs a)),
         platform, annotations, specification.
  split.
  { rewrite Hs'. cbn [_metadata with_metadata with_integrations].
    rewrite Hw. cbn [w_key]. apply get_set_eq. }
  split; [done|]. split; [done|]. split; [done|]. split; [done|].
  assert (Hdescription : a_kwargs a !! "description" = None).
  { apply Hfree. unfold register_parameters. set_solver. }
  unfold metadata_record.
  split; [|split; [|split; [|split; [|split]]]].
  - intros k v Hk. apply lookup_union_Some_l. by rewrite lookup_fmap, Hk.
  - rewrite lookup_union, lookup_fmap, Hdescription. cbn.
    rewrite lookup_insert_ne by done. by rewrite lookup_insert_eq.
  - intros Hk. rewrite lookup_union, lookup_fmap, Hk. cbn.
    by rewrite lookup_insert_eq.
  - intros Hk. rewrite lookup_union, lookup_fmap, Hk. cbn.
    rewrite !lookup_insert_ne by done. by rewrite lookup_insert_eq.
  - intros Hk. rewrite lookup_union, lookup_fmap, Hk. cbn.
    rewrite !lookup_insert_ne by done. by rewrite lookup_insert_eq.
  - intros k Hk Hnot. rewrite lookup_union, lookup_fmap, Hk. cbn.
    rewrite !not_elem_of_cons in Hnot.
    destruct Hnot as (? & ? & ? & ? & _).
    rewrite !lookup_insert_ne by done. by rewrite lookup_empty.
Qed.

#[local] Abbreviation run_attempts :=
  (attempts validate_type_constraints get_integration_platform
     get_integration_key param_to_spec).

Lemma attempts_frame l s :
  _instance (run_attempts l s) = _instance s ∧
  environ (run_attempts l s) = environ s.
Proof.
  revert s. induction l as [|a l IH]; intros s; [done|].
  cbn [attempts fold_left].
  destruct (IH (state_of (attempt validate_type_constraints
                            get_integration_platform get_integration_key
                            param_to_spec a s))) as [Hi He].
  unfold attempts in Hi, He. rewrite Hi, He.
  rewrite attempt_run. destruct (bound_twice (a_kwargs a)); [done|].
  destruct (decorator_register_frame (a_description a) (a_secrets a)
              (a_kwargs a) (a_func a) s) as (Henv & Hinst & _).
  done.
Qed.

(** X13.  The registry is created once: after the import-time
    [Registry()] and any sequence of registrations, successful or not,
    constructing [Registry()] again returns the same instance: nothing that
    was registered is dropped and nothing is logged.  The registrations
    leave [os.environ] as it was when the registry was created. *)
Theorem registry_survives_reconstruction env l :
  let s := run_attempts l (fresh env) in
  __new__ s = (Ok tt, s, []) ∧
  environ s = env ∧
  (∀ s0, __new__ (state_of (__new__ s0)) = (Ok tt, state_of (__new__ s0), [])).
Proof.
  intros s. destruct (attempts_frame l (fresh env)) as [Hi He]. fold s in Hi, He.
  split; [|split].
  - by rewrite __new___run, Hi.
  - by rewrite He.
  - intros s0. rewrite (__new___run s0). unfold state_of. cbn [fst snd].
    rewrite __new___run. by destruct (_instance s0) eqn:E; [rewrite E|].
Qed.

End RegistrationFacts.

(** ** Exporting the specifications *)

Lemma map_result_Err {A B} (f : A → Result B) l e :
  map_result f l = Err e → ∃ x, x ∈ l ∧ f x = Err e.
Proof.
  induction l as [|x l IH]; cbn; [done|].
  destruct (f x) as [y|e'] eqn:E.
  - destruct (map_result f l) as [ys|e'']; [done|].
    intros [= ->]. destruct IH as (x' & Hin & Hx'); [done|].
    exists x'. split; [by right|done].
  - intros [= ->]. exists x. split; [left|done].
Qed.

(** X14.  [get_registered_integration_specs] reads the registry and
    changes nothing.  On a registry whose two dicts agree it returns one
    specification for each registered key, in the order of the keys.  It
    raises [KeyError] for the first registered key that has no metadata
    record, and it raises nothing but a [KeyError], for a registered key or
    for the field name. *)
Theorem export_needs_every_record (s : Process) :
  let run := get_registered_integration_specs s in
  state_of run = s ∧ events_of run = [] ∧
  (registry_consistent s →
   ∃ specs, result_of run = Ok specs ∧
            Forall2 (λ k v, specification_of (_metadata s) k = Ok v)
                    (PyDict.keys (_integrations s)) specs) ∧
  (∀ before k after,
     PyDict.keys (_integrations s) = before ++ k :: after →
     Forall (λ k, ∃ v, specification_of (_metadata s) k = Ok v) before →
     PyDict.get k (_metadata s) = None →
     result_of run = Err (KeyError k)) ∧
  (∀ e, result_of run = Err e →
        ∃ k, e = KeyError k ∧
             (k ∈ PyDict.keys (_integrations s) ∨ k = "specification")).
Proof.
  intros run. unfold run, get_registered_integration_specs.
  rewrite run_bind. cbn [get_state app]. unfold lift.
  unfold result_of, state_of, events_of. cbn [fst snd].
  split; [done|]. split; [done|]. split; [|split].
  - intros Hcons.
    destruct (map_result_total (specification_of (_metadata s))
                (PyDict.keys (_integrations s))) as [specs Hspecs].
    { apply Forall_forall. intros k Hk. apply (Hcons k).
      by apply contains_keys. }
    exists specs. split; [done|]. by apply map_result_Forall2.
  - intros before k after -> Hbefore Hnone.
    apply map_result_first_failure; [done|].
    unfold specification_of. by rewrite Hnone.
  - intros e (k & Hk & He)%map_result_Err.
    unfold specification_of in He.
    destruct (PyDict.get k (_metadata s)) as [record|].
    + destruct (record !! "specification"); [done|].
      injection He as <-. exists "specification". split; [done|by right].
    + injection He as <-. exists k. split; [done|by left].
Qed.

(** ** Register, look up, call *)

Section RegisteredCalls.

Variable validate_type_constraints : PyObj → Result unit.
Variable get_integration_platform : PyObj → Result string.
Variable get_integration_key : PyObj → Result string.
Variable param_to_spec : string → InspectParameter → Result ParameterSpec.
Variable batch_get_secrets : Role → list string → Result (list Secret).

(** X15.  An integration registered without secrets, looked up by its key
    and called: [registry[key]] is the wrapper the decorator returned, the
    call returns what the decorated callable returns, or raises what it
    raises, on the forwarded arguments and in the caller's environment, and
    the integration is still registered afterwards. *)
Theorem registered_call_runs_func description secrets integration_kwargs
    func s w args kwargs role outcome env2 :
  result_of (decorator_register validate_type_constraints
               get_integration_platform get_integration_key param_to_spec
               description secrets integration_kwargs func s) = Ok w →
  truthy secrets = false →
  default (VRole service_role) (kwargs !! "__role") = VRole role →
  call func args (delete "__role" kwargs) (environ s) = (outcome, env2) →
  let s' := state_of (decorator_register validate_type_constraints
                        get_integration_platform get_integration_key
                        param_to_spec
                        description secrets integration_kwargs func s) in
  result_of (__getitem__ (w_key w) s') = Ok w ∧
  let run := wrapper batch_get_secrets w args kwargs s' in
  result_of run = outcome ∧
  state_of run = with_environ (λ _, env2) s' ∧
  filter is_call (events_of run) =
    [EvCall (w_key w) args (delete "__role" kwargs)] ∧
  result_of (__getitem__ (w_key w) (state_of run)) = Ok w.
Proof.
  intros Hok Ht Hrole Hcall s'.
  destruct (decorator_register_Ok _ _ _ _ _ _ _ _ _ _ Hok)
    as (platform & key & annotations & specification & _ & _ & _ & Hfresh
        & Hcallable & _ & _ & Hw & Hs').
  fold s' in Hs'.
  assert (Hint : _integrations s' = PyDict.set key w (_integrations s))
    by (by rewrite Hs').
  assert (Henv : environ s' = environ s) by (by rewrite Hs').
  assert (Hget : ∀ s0, _integrations s0 = _integrations s' →
                       result_of (__getitem__ (w_key w) s0) = Ok w).
  { intros s0 Hs0. unfold __getitem__, get_integration.
    rewrite run_bind. cbn [get_state app]. rewrite Hs0, Hint.
    replace (w_key w) with key by (by rewrite Hw).
    by rewrite get_set_eq. }
  split; [by apply Hget|]. cbn zeta.
  rewrite (wrapper_no_secrets_run batch_get_secrets w args kwargs s' role
             outcome env2 Hrole).
  - unfold result_of at 1, state_of, events_of. cbn [fst snd].
    split; [done|]. split; [done|]. split.
    + by destruct outcome as [v|e]; [|destruct (is_Exception e)].
    + apply Hget. by destruct s'.
  - by rewrite Hw.
  - by rewrite Hw.
  - rewrite Henv. by rewrite Hw.
Qed.

End RegisteredCalls.

(** ** The further properties on the samples *)

Lemma wrapper_scoped_call_witness :
  let run := wrapper Demo.batch_get_secrets Samples.read_with_smtp [] ∅
               Demo.home in
  result_of run = Ok (VStr "mail.example.org") ∧
  environ (state_of run) !! "HOST" = None ∧
  state_of run = Demo.home.
Proof.
  destruct (wrapper_scoped_call Demo.batch_get_secrets Samples.read_with_smtp
              [] ∅ Demo.home service_role Demo.smtp_creds
              (Ok (VStr "mail.example.org"))
              (set_items (secret_env_items Demo.smtp_creds)
                         (environ Demo.home)))
    as (_ & Hresult & Henv & _ & _ & Hstate).
  - reflexivity.
  - reflexivity.
  - vm_compute; reflexivity.
  - reflexivity.
  - apply (bool_decide_unpack _). vm_compute. exact I.
  - accepted.
  - vm_compute; reflexivity.
  - apply Forall_forall. apply (bool_decide_unpack _). vm_compute. exact I.
  - split; [exact Hresult|]. split.
    + rewrite Henv. vm_compute. reflexivity.
    + apply Hstate; [reflexivity|].
      apply Forall_forall. apply (bool_decide_unpack _). vm_compute. exact I.
Defined.

Lemma wrapper_without_secrets_witness :
  let run := wrapper Demo.batch_get_secrets Samples.read_with_none []
               Demo.kwargs_alice Demo.host_set in
  result_of run = Ok (VStr "localhost") ∧
  state_of run = with_environ (λ _, environ Demo.host_set) Demo.host_set ∧
  filter is_fetch (events_of run) = [].
Proof.
  destruct (wrapper_without_secrets Demo.batch_get_secrets
              Samples.read_with_none [] Demo.kwargs_alice Demo.host_set
              Demo.alice (Ok (VStr "localhost")) (environ Demo.host_set))
    as (Hresult & Hstate & Hfetch & _).
  - vm_compute; reflexivity.
  - reflexivity.
  - reflexivity.
  - vm_compute; reflexivity.
  - split; [exact Hresult|]. split; [exact Hstate|exact Hfetch].
Defined.

Lemma create_spec_fields_witness :
  let specification :=
    {| spec_name := "read_host";
       spec_description := "Read the host";
       spec_docstring := "No documentation provided.";
       spec_platform := "demo";
       spec_parameters := [] |} in
  __name__ Samples.read_host = Some (spec_name specification) ∧
  spec_docstring specification ≠ EmptyString ∧
  (__doc__ Samples.read_host = None ∨
   __doc__ Samples.read_host = Some EmptyString →
   spec_docstring specification = "No documentation provided.").
Proof.
  destruct (create_spec_fields Demo.get_integration_platform
              Demo.param_to_spec Samples.read_host "Read the host" Demo.home
              {| spec_name := "read_host";
                 spec_description := "Read the host";
                 spec_docstring := "No documentation provided.";
                 spec_platform := "demo";
                 spec_parameters := [] |})
    as (_ & Hname & _ & _ & Hdoc & _ & Hfallback).
  - vm_compute; reflexivity.
  - split; [exact Hname|]. split; [exact Hdoc|exact Hfallback].
Defined.

Lemma register_then_lookup_witness :
  let decorated :=
    decorator_register Demo.validate_type_constraints
      Demo.get_integration_platform Demo.get_integration_key
      Demo.param_to_spec "Read the host" (Some ["smtp_creds"]) ∅
      Samples.read_host Demo.two_registered in
  result_of (get_integration "integrations.demo.read_host"
               (state_of decorated)) = Ok Samples.read_with_smtp ∧
  result_of (__contains__ "integrations.demo.read_host" Demo.two_registered)
    = Ok false ∧
  result_of (list_integrations (state_of decorated)) =
    Ok (PyDict.keys (_integrations Demo.two_registered) ++
        ["integrations.demo.read_host"]).
Proof.
  destruct (register_then_lookup Demo.validate_type_constraints
              Demo.get_integration_platform Demo.get_integration_key
              Demo.param_to_spec "Read the host" (Some ["smtp_creds"]) ∅
              Samples.read_host Demo.two_registered Samples.read_with_smtp)
    as (_ & _ & _ & Hbefore & _ & Hget & Hlist & _).
  - vm_compute; reflexivity.
  - split; [exact Hget|]. split; [exact Hbefore|exact Hlist].
Defined.

Lemma register_succeeds_witness :
  let run :=
    decorator_register Demo.validate_type_constraints
      Demo.get_integration_platform Demo.get_integration_key
      Demo.param_to_spec "Send an email" None ∅ Demo.send_email Demo.home in
  result_of run =
    Ok {| w_func := Demo.send_email;
          w_key := "integrations.demo.send_email";
          w_secrets := None |} ∧
  events_of run = [EvLog INFO "Registering integration"] ∧
  (registry_consistent Demo.home → registry_consistent (state_of run)).
Proof.
  apply (register_succeeds Demo.validate_type_constraints
           Demo.get_integration_platform Demo.get_integration_key
           Demo.param_to_spec "Send an email" None ∅ Demo.send_email Demo.home
           "send_email" "demo" "integrations.demo.send_email"
           (<["to" := "<class 'str'>"]> (<["return" := "<class 'bool'>"]> ∅))
           [("to", {| p_annotation := Some "str"; p_default := None |})]).
  - reflexivity.
  - vm_compute; reflexivity.
  - reflexivity.
  - reflexivity.
  - vm_compute; reflexivity.
  - reflexivity.
  - reflexivity.
  - reflexivity.
  - repeat constructor. eexists. reflexivity.
Defined.

Lemma register_metadata_fields_witness :
  let a :=
    {| a_description := "Read the host";
       a_secrets := None;
       a_kwargs := <["platform" := VStr "custom"]> (<["version" := VInt 2]> ∅);
       a_func := Samples.read_host |} in
  let decorated := Demo.try_register a Demo.home in
  ∃ record annotations,
    PyDict.get "integrations.demo.read_host" (_metadata (state_of decorated))
      = Some record ∧
    __annotations__ Samples.read_host = Some annotations ∧
    record !! "version" = Some (MVal (VInt 2)) ∧
    record !! "platform" = Some (MVal (VStr "custom")) ∧
    record !! "description" = Some (MStr "Read the host") ∧
    record !! "return_type" =
      Some (MStr (default "None" (annotations !! "return"))).
Proof.
  destruct (register_metadata_fields Demo.validate_type_constraints
              Demo.get_integration_platform Demo.get_integration_key
              Demo.param_to_spec
              {| a_description := "Read the host";
                 a_secrets := None;
                 a_kwargs := <["platform" := VStr "custom"]>
                               (<["version" := VInt 2]> ∅);
                 a_func := Samples.read_host |}
              Demo.home
              {| w_func := Samples.read_host;
                 w_key := "integrations.demo.read_host";
                 w_secrets := None |})
    as (record & platform & annotations & specification & Hget & _
        & Hann & _ & _ & Hkw & Hd & _ & Hr & _).
  - vm_compute; reflexivity.
  - exists record, annotations.
    split; [exact Hget|]. split; [exact Hann|].
    split; [apply Hkw; vm_compute; reflexivity|].
    split; [apply Hkw; vm_compute; reflexivity|].
    split; [exact Hd|].
    apply Hr; vm_compute; reflexivity.
Defined.

Lemma registered_call_runs_func_witness :
  let decorated :=
    decorator_register Demo.validate_type_constraints
      Demo.get_integration_platform Demo.get_integration_key
      Demo.param_to_spec "Send an email" None ∅ Demo.send_email Demo.home in
  result_of (__getitem__ "integrations.demo.send_email" (state_of decorated))
    = Ok Demo.send_plain ∧
  result_of (wrapper Demo.batch_get_secrets Demo.send_plain [VStr "a"]
               Demo.kwargs_alice (state_of decorated)) = Ok (VBool true).
Proof.
  destruct (registered_call_runs_func Demo.validate_type_constraints
              Demo.get_integration_platform Demo.get_integration_key
              Demo.param_to_spec Demo.batch_get_secrets "Send an email" None ∅
              Demo.send_email Demo.home Demo.send_plain [VStr "a"]
              Demo.kwargs_alice Demo.alice (Ok (VBool true))
              (environ Demo.home))
    as (Hget & Hresult & _).
  - vm_compute; reflexivity.
  - reflexivity.
  - vm_compute; reflexivity.
  - reflexivity.
  - split; [exact Hget|exact Hresult].
Defined.
